(** * Zettlr: the update-check command

    A shallow embedding of [source/main/commands/update-check.js] and the
    properties of its control flow: transport-error classification, the
    blank-body guard, the release acceptance rule, the changelog link
    rewriting and the promise chain of [run].

    JavaScript strings are sequences of UTF-16 code units, JavaScript values
    are the values [JSON.parse] can build (plus [undefined]), and the
    command's mutable field [this._response] is threaded explicitly.  The
    collaborators that live outside the repository ([got], [JSON.parse],
    [semver], [showdown], the translation table and the engine's wording of
    runtime errors) are parameters of the development. *)

From Stdlib Require Import NArith ZArith Bool Ascii String DecimalString List Lia.
From Stdlib Require Import Floats.SpecFloat.
From Equations Require Import Equations.
Import ListNotations.

Set Implicit Arguments.
#[local] Set Warnings "-register-all".

(* ===================================================================== *)
(** ** JavaScript strings *)
(* ===================================================================== *)

Module JsString.

(** One UTF-16 code unit. *)
Definition char16 := N.

Definition jsstring := list char16.

(** An ASCII literal of the source text as a JavaScript string. *)
Definition lit (s : string) : jsstring :=
  List.map N_of_ascii (list_ascii_of_string s).

(** The double quote character, U+0022. *)
Definition dquote : jsstring := [34%N].

Definition eqb (a b : jsstring) : bool :=
  if list_eq_dec N.eq_dec a b then true else false.

(** ECMAScript LineTerminator: LF, CR, LS, PS. *)
Definition is_line_terminator (c : char16) : bool :=
  ((c =? 10) || (c =? 13) || (c =? 8232) || (c =? 8233))%N.

(** ECMAScript WhiteSpace: TAB, VT, FF, SP, NBSP, ZWNBSP and the
    Unicode space separators. *)
Definition is_white_space (c : char16) : bool :=
  ((c =? 9) || (c =? 11) || (c =? 12) || (c =? 32) || (c =? 160)
   || (c =? 65279) || (c =? 5760) || ((8192 <=? c) && (c <=? 8202))
   || (c =? 8239) || (c =? 8287) || (c =? 12288))%N.

(** What [String.prototype.trim] strips. *)
Definition is_trimmed (c : char16) : bool :=
  is_white_space c || is_line_terminator c.

Fixpoint trim_start (s : jsstring) : jsstring :=
  match s with
  | [] => []
  | c :: s' => if is_trimmed c then trim_start s' else s
  end.

Definition trim_end (s : jsstring) : jsstring :=
  rev (trim_start (rev s)).

(** [String.prototype.trim] *)
Definition trim (s : jsstring) : jsstring := trim_end (trim_start s).

(** A body the spec calls blank: empty, or white space only. *)
Definition blank (s : jsstring) : Prop :=
  Forall (fun c => is_trimmed c = true) s.

Definition blankb (s : jsstring) : bool := forallb is_trimmed s.

Fixpoint starts_with (p s : jsstring) : option jsstring :=
  match p, s with
  | [], _ => Some s
  | a :: p', b :: s' => if (a =? b)%N then starts_with p' s' else None
  | _ :: _, [] => None
  end.

Lemma starts_with_Some p s r : starts_with p s = Some r -> s = p ++ r.
Proof.
  revert s. induction p as [|a p IH]; intros s H; simpl in *.
  - congruence.
  - destruct s as [|b s]; [discriminate|].
    destruct (N.eqb_spec a b) as [->|]; [|discriminate].
    f_equal. apply IH. exact H.
Qed.

End JsString.
Import JsString.

(* ===================================================================== *)
(** ** JavaScript values, exceptions and property reads *)
(* ===================================================================== *)

(** A JavaScript Number: an IEEE 754 binary64 value. *)
Definition number := spec_float.

Definition number_of_Z (n : Z) : number := binary_normalize 53 1024 n 0 false.

(** The values the command handles: what [JSON.parse] builds, and
    [undefined].  An object is the list of its own properties in insertion
    order. *)
Inductive value : Type :=
| VUndefined
| VNull
| VBool (b : bool)
| VNum (x : number)
| VStr (s : jsstring)
| VArr (items : list value)
| VObj (props : list (jsstring * value)).

(** ToBoolean *)
Definition truthy (v : value) : bool :=
  match v with
  | VUndefined | VNull => false
  | VBool b => b
  | VNum (S754_zero _) | VNum S754_nan => false
  | VNum _ => true
  | VStr [] => false
  | VStr (_ :: _) => true
  | VArr _ | VObj _ => true
  end.

(** What the engine reports on its own. *)
Inductive fault : Type :=
| CannotRead (prop : jsstring) (base : value)   (* property read on undefined or null *)
| NotCallable (prop : jsstring) (base : value). (* call of a member that is no function *)

(** A thrown JavaScript exception. *)
Inductive exn : Type :=
| Error (message : jsstring)                    (* [new Error(message)] of this module *)
| TypeError (f : fault)                         (* raised by the engine *)
| Foreign (name : jsstring) (message : jsstring). (* raised inside a library *)

(** The completion of an evaluation. *)
Inductive Result (A : Type) : Type :=
| Ok (a : A)
| Throw (e : exn).
Arguments Ok {A} a.
Arguments Throw {A} e.

Definition is_ok {A} (r : Result A) : bool :=
  match r with Ok _ => true | Throw _ => false end.

Fixpoint lookup (k : jsstring) (props : list (jsstring * value)) : option value :=
  match props with
  | [] => None
  | (k', v) :: rest => if JsString.eqb k k' then Some v else lookup k rest
  end.

(** [base.prop] for a property name that no built-in prototype defines
    ([prerelease], [tag_name], [draft], [body], [html_url]). *)
Definition member (base : value) (prop : jsstring) : Result value :=
  match base with
  | VUndefined | VNull => Throw (TypeError (CannotRead prop base))
  | VObj props =>
      match lookup prop props with Some v => Ok v | None => Ok VUndefined end
  | VBool _ | VNum _ | VStr _ | VArr _ => Ok VUndefined
  end.

(** [base[0]] *)
Definition index0 (base : value) : Result value :=
  match base with
  | VUndefined | VNull => Throw (TypeError (CannotRead (lit "0") base))
  | VArr (x :: _) => Ok x
  | VArr [] => Ok VUndefined
  | VStr (c :: _) => Ok (VStr [c])
  | VStr [] => Ok VUndefined
  | VObj props =>
      match lookup (lit "0") props with Some v => Ok v | None => Ok VUndefined end
  | VBool _ | VNum _ => Ok VUndefined
  end.

(** ToString of an optional string, as a template literal performs it. *)
Definition to_string_opt (o : option jsstring) : jsstring :=
  match o with Some s => s | None => lit "undefined" end.

(* ===================================================================== *)
(** ** The changelog's link rewriting *)
(* ===================================================================== *)

Module Links.

(** The tail [(.*?)<\/a>] of [aRE]: the shortest run of characters other
    than line terminators that is followed by the closing tag.  Returns
    the capture and what follows the match. *)
Fixpoint lazy_text (s : jsstring) : option (jsstring * jsstring) :=
  match starts_with (lit "</a>") s with
  | Some rest => Some ([], rest)
  | None =>
      match s with
      | [] => None
      | c :: s' =>
          if is_line_terminator c then None
          else match lazy_text s' with
               | Some (p2, rest) => Some (c :: p2, rest)
               | None => None
               end
      end
  end.

(** [(.+?)>(.*?)<\/a>]: the first capture takes one character, then as few
    more as let the rest of the pattern match. *)
Fixpoint lazy_attrs (s : jsstring) : option (jsstring * jsstring * jsstring) :=
  match s with
  | [] => None
  | c :: s' =>
      if is_line_terminator c then None
      else
        let here :=
          match starts_with (lit ">") s' with
          | Some r => lazy_text r
          | None => None
          end in
        match here with
        | Some (p2, rest) => Some ([c], p2, rest)
        | None =>
            match lazy_attrs s' with
            | Some (p1, p2, rest) => Some (c :: p1, p2, rest)
            | None => None
            end
        end
  end.

(** One attempt of [aRE = /<a(.+?)>(.*?)<\/a>/] at the start of [s]:
    the two captures and the text after the match. *)
Definition aRE_exec (s : jsstring) : option (jsstring * jsstring * jsstring) :=
  match starts_with (lit "<a") s with
  | Some r => lazy_attrs r
  | None => None
  end.

Definition onclick : jsstring :=
  lit "require('electron').shell.openExternal(this.getAttribute('href')); return false;".

(** The replacement callback of [html.replace(aRE, ...)]. *)
Definition replacement (p1 p2 : jsstring) : jsstring :=
  lit "<a" ++ p1 ++ lit " onclick=" ++ dquote ++ onclick ++ dquote
    ++ lit " target=" ++ dquote ++ lit "_blank" ++ dquote ++ lit ">"
    ++ p2 ++ lit "</a>".

(** The shape of a match; with it, the text left after a match is shorter
    than the text matched, which is what lets [replace_aRE] recurse. *)
Lemma lazy_text_shape s p2 rest :
  lazy_text s = Some (p2, rest) -> s = p2 ++ lit "</a>" ++ rest.
Proof.
  revert p2 rest. induction s as [|c s IH]; intros p2 rest.
  - simpl. discriminate.
  - unfold lazy_text; fold lazy_text.
    destruct (starts_with (lit "</a>") (c :: s)) as [r|] eqn:Hs.
    + intros [= <- <-]. apply starts_with_Some in Hs. exact Hs.
    + destruct (is_line_terminator c); [discriminate|].
      destruct (lazy_text s) as [[q r]|]; [|discriminate].
      intros [= <- <-]. rewrite (IH q r eq_refl). reflexivity.
Qed.

Lemma lazy_attrs_shape s p1 p2 rest :
  lazy_attrs s = Some (p1, p2, rest) ->
  s = p1 ++ lit ">" ++ p2 ++ lit "</a>" ++ rest /\ p1 <> [].
Proof.
  revert p1 p2 rest. induction s as [|c s IH]; intros p1 p2 rest.
  - simpl. discriminate.
  - unfold lazy_attrs; fold lazy_attrs.
    destruct (is_line_terminator c); [discriminate|].
    destruct (starts_with (lit ">") s) as [r|] eqn:Hgt.
    + destruct (lazy_text r) as [[q t]|] eqn:Ht.
      * intros [= <- <- <-]. apply starts_with_Some in Hgt.
        apply lazy_text_shape in Ht. subst. split; [reflexivity|discriminate].
      * destruct (lazy_attrs s) as [[[a b] t]|]; [|discriminate].
        intros [= <- <- <-]. destruct (IH a b t eq_refl) as [-> _].
        split; [reflexivity|discriminate].
    + destruct (lazy_attrs s) as [[[a b] t]|]; [|discriminate].
      intros [= <- <- <-]. destruct (IH a b t eq_refl) as [-> _].
      split; [reflexivity|discriminate].
Qed.

Lemma aRE_exec_shape s p1 p2 rest :
  aRE_exec s = Some (p1, p2, rest) ->
  s = lit "<a" ++ p1 ++ lit ">" ++ p2 ++ lit "</a>" ++ rest /\ p1 <> [].
Proof.
  unfold aRE_exec. destruct (starts_with (lit "<a") s) as [r|] eqn:Hs; [|discriminate].
  intros H. apply lazy_attrs_shape in H. destruct H as [-> Hne].
  apply starts_with_Some in Hs. split; assumption.
Qed.

Lemma aRE_exec_shorter s p1 p2 rest :
  aRE_exec s = Some (p1, p2, rest) -> length rest < length s.
Proof.
  intros H. apply aRE_exec_shape in H. destruct H as [-> _].
  rewrite !length_app. simpl. lia.
Qed.

Definition inspect {A} (a : A) : {b : A | a = b} := exist _ a eq_refl.

(** [html.replace(aRE, callback)] with the [g] flag: scan from the left,
    replace each match and resume right after it. *)
Equations? replace_aRE (s : jsstring) : jsstring by wf (length s) lt :=
  replace_aRE [] := [];
  replace_aRE (c :: s') with inspect (aRE_exec (c :: s')) := {
    | exist _ (Some (p1, p2, rest)) Heq := replacement p1 p2 ++ replace_aRE rest;
    | exist _ None _ := c :: replace_aRE s' }.
Proof. exact (aRE_exec_shorter _ Heq). Qed.

End Links.

Import Links.

(* ===================================================================== *)
(** ** The command object and its monad *)
(* ===================================================================== *)

(** The instance state of [UpdateCheck]: the field [this._response]. *)
Record UpdateCheck : Type := { _response : value }.

(** The constructor: [this._response = ''] *)
Definition constructor : UpdateCheck := {| _response := VStr [] |}.

(** A method body: it reads and writes [this] and completes normally or
    abruptly; what was written before a throw stays written. *)
Definition M (A : Type) : Type := UpdateCheck -> Result A * UpdateCheck.

Definition ret {A} (a : A) : M A := fun this => (Ok a, this).

Definition throw {A} (e : exn) : M A := fun this => (Throw e, this).

Definition lift {A} (r : Result A) : M A := fun this => (r, this).

Definition bind {A B} (m : M A) (k : A -> M B) : M B :=
  fun this =>
    match m this with
    | (Ok a, this') => k a this'
    | (Throw e, this') => (Throw e, this')
    end.

Definition get_response : M value := fun this => (Ok (_response this), this).

Definition set_response (v : value) : M unit :=
  fun _ => (Ok tt, {| _response := v |}).

Declare Scope js_scope.
Delimit Scope js_scope with js.
Notation "x <- m ;; k" := (bind m (fun x => k))
  (at level 61, m at next level, right associativity) : js_scope.
Notation "m ;; k" := (bind m (fun _ => k))
  (at level 61, right associativity) : js_scope.
Open Scope js_scope.

(** [recv.name(...)] where [name] is a method of [String.prototype]: the
    receiver must be a string. *)
Definition string_method {A} (name : jsstring) (recv : value)
    (method : jsstring -> A) : Result A :=
  match recv with
  | VStr s => Ok (method s)
  | VUndefined | VNull => Throw (TypeError (CannotRead name recv))
  | VBool _ | VNum _ | VArr _ | VObj _ => Throw (TypeError (NotCallable name recv))
  end.

(** The object literal [_parseResponse] returns. *)
Record UpdateData : Type := {
  newVer : value;
  curVer : jsstring;
  changelog : jsstring;
  releaseURL : value;
  isBeta : value;
  downloadURL : jsstring
}.

(** The options of the [got] call. *)
Record request : Type := {
  url : jsstring;
  followRedirect : bool;
  accept : jsstring
}.

(** The error [got] rejects with, as far as [_check] looks at it. *)
Record got_error : Type := {
  statusCode : option Z;
  code : option jsstring;
  message : jsstring
}.

Inductive got_outcome : Type :=
| Fulfilled (response : value)
| Rejected (error : got_error).

(** The options the [showdown] converter is built with. *)
Record converter_options : Type := {
  headerLevelStart : nat;
  flavor : jsstring
}.

(** What the host application provides at run time. *)
Record host : Type := {
  got : request -> got_outcome;          (* the HTTP client and the network *)
  config_get : jsstring -> value          (* [global.config.get] *)
}.

(** What the command makes observable. *)
Inductive event : Type :=
| IpcSend (channel : jsstring) (payload : UpdateData)  (* [this._app.ipc.send] *)
| Notify (text : jsstring).                            (* [global.ipc.notify] *)

(** The command together with what the host sees of it: the events it was
    sent, and the rejections of promises that nothing handled. *)
Record process : Type := {
  this_ : UpdateCheck;
  events : list event;
  unhandled : list exn
}.

(* ===================================================================== *)
(** ** The command: [run], [_check], [_parseResponse] *)
(* ===================================================================== *)

Section Command.

(** [trans(key, ...args)] of [common/lang/i18n.js] *)
Variable trans : jsstring -> list value -> jsstring.
(** [JSON.parse] *)
Variable JSON_parse : jsstring -> Result value.
(** [semver.lt(a, b)] *)
Variable semver_lt : jsstring -> value -> Result bool.
(** [new showdown.Converter(options).makeHtml(text)] *)
Variable makeHtml : converter_options -> value -> Result value.
(** The engine's wording of a runtime error. *)
Variable engine_message : fault -> jsstring.
(** [require('../../common/data.json').repo_url] *)
Variable REPO_URL : jsstring.
(** [require('../../package.json').version] *)
Variable CUR_VER : jsstring.

Variable h : host.

(** [e.message] *)
Definition exn_message (e : exn) : jsstring :=
  match e with
  | Error m => m
  | TypeError f => engine_message f
  | Foreign _ m => m
  end.

(** [this._response[0].prop] *)
Definition first_release (prop : jsstring) : M value :=
  r <- get_response ;;
  r0 <- lift (index0 r) ;;
  lift (member r0 prop).

(** The converter of lines 103-106. *)
Definition conv : converter_options :=
  {| headerLevelStart := 2; flavor := lit "github" |}.

Definition _parseResponse : M UpdateData :=
  r <- get_response ;;
  match r with
  | VStr s =>
      if JsString.eqb (trim s) []
      then throw (Error (trans (lit "dialog.update.no_data") []))
      else
        parsed <- lift (JSON_parse s) ;;
        set_response parsed ;;
        let acceptRelease := config_get h (lit "checkForBeta") in
        acceptRelease <-
          (if negb (truthy acceptRelease)
           then p <- first_release (lit "prerelease") ;; ret (VBool (negb (truthy p)))
           else ret acceptRelease) ;;
        tag <- first_release (lit "tag_name") ;;
        newer <- lift (semver_lt CUR_VER tag) ;;
        cond <-
          (if newer
           then if truthy acceptRelease
                then d <- first_release (lit "draft") ;; ret (negb (truthy d))
                else ret false
           else ret false) ;;
        if (cond : bool)
        then
          body <- first_release (lit "body") ;;
          html <- lift (makeHtml conv body) ;;
          html <- lift (string_method (lit "replace") html replace_aRE) ;;
          tag_name <- first_release (lit "tag_name") ;;
          html_url <- first_release (lit "html_url") ;;
          prerelease <- first_release (lit "prerelease") ;;
          ret {| newVer := tag_name;
                 curVer := CUR_VER;
                 changelog := html;
                 releaseURL := html_url;
                 isBeta := prerelease;
                 downloadURL := [] |}
        else throw (Error (trans (lit "dialog.update.no_update") []))
  | VUndefined | VNull => throw (TypeError (CannotRead (lit "trim") r))
  | VBool _ | VNum _ | VArr _ | VObj _ =>
      throw (TypeError (NotCallable (lit "trim") r))
  end.

(** The [catch] block of [_check]: the error it throws instead. *)
Definition classify (error : got_error) : exn :=
  let ge (n : Z) :=
    match statusCode error with Some c => (n <=? c)%Z | None => false end in
  let status :=
    match statusCode error with Some c => [VNum (number_of_Z c)] | None => [VUndefined] end in
  let enotfound :=
    match code error with Some c => JsString.eqb c (lit "ENOTFOUND") | None => false end in
  if ge 500%Z then Error (trans (lit "dialog.update.server_error") status)
  else if ge 400%Z then Error (trans (lit "dialog.update.client_error") status)
  else if ge 300%Z then Error (trans (lit "dialog.update.redirect_error") status)
  else if enotfound then Error (trans (lit "dialog.update.connection_error") [])
  else Error (lit "Could not check for updates. " ++ to_string_opt (code error)
                ++ lit ": " ++ message error).

(** The request of lines 49-54. *)
Definition releases_request : request :=
  {| url := REPO_URL ++ lit "releases";
     followRedirect := false;
     accept := lit "application/vnd.github.v3+json" |}.

(** An exception of the engine as the [catch] block reads it: it has a
    [message], and neither [statusCode] nor [code]. *)
Definition caught (e : exn) : got_error :=
  {| statusCode := None; code := None; message := exn_message e |}.

(** Lines 48-74 hold both assignments in the [try] block, so the [catch]
    block also gets what reading [body] throws; [_parseResponse] is called
    after it. *)
Definition _check : M UpdateData :=
  match got h releases_request with
  | Fulfilled response =>
      set_response response ;;
      r <- get_response ;;
      match member r (lit "body") with
      | Ok body => set_response body ;; _parseResponse
      | Throw e => throw (classify (caught e))
      end
  | Rejected error => throw (classify error)
  end.

(** A promise: what it settles with, and what settling it does. *)
Definition promise (A : Type) : Type := process -> Result A * process.

(** A handler of the promise chain: it appends to the host's log. *)
Definition emit (ev : event) : promise unit :=
  fun p =>
    (Ok tt, {| this_ := this_ p; events := events p ++ [ev];
               unhandled := unhandled p |}).

(** [promise.then(onFulfilled)] *)
Definition then_ {A B} (pr : promise A) (onFulfilled : A -> promise B)
    : promise B :=
  fun p =>
    match pr p with
    | (Ok a, p') => onFulfilled a p'
    | (Throw e, p') => (Throw e, p')
    end.

(** [promise.catch(onRejected)] *)
Definition catch_ {A} (pr : promise A) (onRejected : exn -> promise A)
    : promise A :=
  fun p =>
    match pr p with
    | (Ok a, p') => (Ok a, p')
    | (Throw e, p') => onRejected e p'
    end.

(** A method of the command, run inside the process. *)
Definition on_this {A} (m : M A) : promise A :=
  fun p =>
    let (r, this') := m (this_ p) in
    (r, {| this_ := this'; events := events p; unhandled := unhandled p |}).

(** The call of an [async] method: the call completes normally, with the
    promise of the body's completion. *)
Definition async {A} (m : M A) : Result (promise A) := Ok (on_this m).

(** The end of a chain that nothing awaits: a rejection that reaches it is
    unhandled. *)
Definition settle {A} (pr : promise A) (p : process) : process :=
  match pr p with
  | (Ok _, p') => p'
  | (Throw e, p') =>
      {| this_ := this_ p'; events := events p'; unhandled := unhandled p' ++ [e] |}
  end.

(** [run]: its own completion, and the process once the promise chain has
    settled. *)
Definition run (p : process) : Result bool * process :=
  match async _check with
  | Ok checking =>
      let chain :=
        catch_
          (then_ checking
                 (fun res => emit (IpcSend (lit "update-available") res)))
          (fun e => emit (Notify (exn_message e))) in
      (Ok true, settle chain p)
  | Throw e => (Throw e, p)
  end.

End Command.

(* ===================================================================== *)
(** ** Reference collaborators

    Executable stand-ins for the libraries the command calls, used to run
    the model on concrete feeds.  The theorems below hold for every
    collaborator; these instances only feed the examples. *)
(* ===================================================================== *)

Module Reference.

Definition decimal (n : N) : jsstring := lit (NilZero.string_of_uint (N.to_uint n)).

(** *** JSON.parse *)

Inductive parsed (A : Type) : Type :=
| POk (a : A) (rest : jsstring)
| PErr (at_ : jsstring).            (* the input left where parsing stopped *)
Arguments POk {A} a rest.
Arguments PErr {A} at_.

Definition is_json_ws (c : char16) : bool :=
  ((c =? 32) || (c =? 9) || (c =? 10) || (c =? 13))%N.

Fixpoint skip_ws (s : jsstring) : jsstring :=
  match s with
  | c :: s' => if is_json_ws c then skip_ws s' else s
  | [] => []
  end.

Definition digit (c : char16) : option N :=
  if ((48 <=? c) && (c <=? 57))%N then Some (c - 48)%N else None.

Definition hex (c : char16) : option N :=
  if ((48 <=? c) && (c <=? 57))%N then Some (c - 48)%N
  else if ((65 <=? c) && (c <=? 70))%N then Some (c - 55)%N
  else if ((97 <=? c) && (c <=? 102))%N then Some (c - 87)%N
  else None.

(** A maximal run of digits: its value, its length and the rest. *)
Fixpoint digits (acc : N) (count : nat) (s : jsstring) : N * nat * jsstring :=
  match s with
  | c :: s' =>
      match digit c with
      | Some d => digits (10 * acc + d)%N (S count) s'
      | None => (acc, count, s)
      end
  | [] => (acc, count, s)
  end.

(** The binary64 value nearest to [(-1)^neg * m * 10^e]. *)
Definition number_of_decimal (neg : bool) (m : N) (e : Z) : number :=
  match m with
  | N0 => S754_zero neg
  | Npos p =>
      match e with
      | Zneg k => SFdiv 53 1024 (S754_finite neg p 0) (S754_finite false (10 ^ k)%positive 0)
      | _ => binary_normalize 53 1024 (Z.pos p * 10 ^ e)%Z 0 false
      end
  end.

Definition negate (neg : bool) (x : number) : number :=
  if neg then SFopp x else x.

(** number = [-] int [frac] [exp] *)
Definition parse_number (s : jsstring) : parsed value :=
  let (neg, s1) := match s with 45%N :: r => (true, r) | _ => (false, s) end in
  let '(int, n_int, s2) := digits 0 0 s1 in
  let leading_zero :=
    match s1 with 48%N :: _ => Nat.ltb 1 n_int | _ => false end in
  if (Nat.eqb n_int 0) then PErr s1
  else if leading_zero then PErr (tl s1)
  else
    let '(m, n_frac, s3, bad) :=
      match s2 with
      | 46%N :: r =>
          let '(m, n, r') := digits int 0 r in
          (m, n, r', Nat.eqb n 0)
      | _ => (int, 0, s2, false)
      end in
    if bad then PErr s3
    else
      let after_e (r : jsstring) :=
        let (eneg, r1) :=
          match r with
          | 45%N :: r' => (true, r')
          | 43%N :: r' => (false, r')
          | _ => (false, r)
          end in
        let '(ex, n, r2) := digits 0 0 r1 in
        if Nat.eqb n 0 then PErr r1
        else
          let e := (if eneg then - Z.of_N ex else Z.of_N ex)%Z in
          POk (VNum (negate neg (number_of_decimal false m (e - Z.of_nat n_frac)))) r2 in
      match s3 with
      | 101%N :: r | 69%N :: r => after_e r
      | _ => POk (VNum (negate neg (number_of_decimal false m (- Z.of_nat n_frac)))) s3
      end.

(** The characters of a string literal after its opening quote. *)
Fixpoint parse_chars (s : jsstring) : parsed jsstring :=
  let cons c r := match r with POk t rest => POk (c :: t) rest | PErr e => PErr e end in
  match s with
  | [] => PErr []
  | 34%N :: rest => POk [] rest
  | 92%N :: esc =>
      match esc with
      | 34%N :: r => cons 34%N (parse_chars r)
      | 92%N :: r => cons 92%N (parse_chars r)
      | 47%N :: r => cons 47%N (parse_chars r)
      | 98%N :: r => cons 8%N (parse_chars r)
      | 102%N :: r => cons 12%N (parse_chars r)
      | 110%N :: r => cons 10%N (parse_chars r)
      | 114%N :: r => cons 13%N (parse_chars r)
      | 116%N :: r => cons 9%N (parse_chars r)
      | 117%N :: a :: b :: c :: d :: r =>
          match hex a, hex b, hex c, hex d with
          | Some x, Some y, Some z, Some w =>
              cons (4096 * x + 256 * y + 16 * z + w)%N (parse_chars r)
          | _, _, _, _ => PErr (a :: b :: c :: d :: r)
          end
      | _ => PErr esc
      end
  | c :: r => if (c <? 32)%N then PErr s else cons c (parse_chars r)
  end.

(** [obj[k] = v] while an object literal is read: a repeated key keeps
    its place and takes the later value. *)
Fixpoint define (k : jsstring) (v : value) (props : list (jsstring * value))
    : list (jsstring * value) :=
  match props with
  | [] => [(k, v)]
  | (k', v') :: rest =>
      if JsString.eqb k k' then (k', v) :: rest else (k', v') :: define k v rest
  end.

(** A keyword, read character by character. *)
Fixpoint expect (w s : jsstring) : parsed unit :=
  match w, s with
  | [], _ => POk tt s
  | a :: w', b :: s' => if (a =? b)%N then expect w' s' else PErr s
  | _ :: _, [] => PErr []
  end.

Definition keyword (w : string) (v : value) (s : jsstring) : parsed value :=
  match expect (lit w) s with
  | POk _ rest => POk v rest
  | PErr e => PErr e
  end.

(** value, the elements of an array after [[] or [,], the members of an
    object after [{] or [,].  Every call consumes input, so [fuel] beyond
    the length of the text is never used up. *)
Fixpoint parse_value (fuel : nat) (s : jsstring) : parsed value :=
  match fuel with
  | O => PErr s
  | S fuel =>
      match skip_ws s with
      | 91%N :: r =>
          match skip_ws r with
          | 93%N :: r' => POk (VArr []) r'
          | _ => parse_elements fuel [] r
          end
      | 123%N :: r =>
          match skip_ws r with
          | 125%N :: r' => POk (VObj []) r'
          | _ => parse_members fuel [] r
          end
      | 34%N :: r =>
          match parse_chars r with
          | POk t rest => POk (VStr t) rest
          | PErr e => PErr e
          end
      | (116%N :: _) as w => keyword "true" (VBool true) w
      | (102%N :: _) as w => keyword "false" (VBool false) w
      | (110%N :: _) as w => keyword "null" VNull w
      | w => parse_number w
      end
  end
with parse_elements (fuel : nat) (acc : list value) (s : jsstring) : parsed value :=
  match fuel with
  | O => PErr s
  | S fuel =>
      match parse_value fuel s with
      | PErr e => PErr e
      | POk v r =>
          match skip_ws r with
          | 44%N :: r' => parse_elements fuel (v :: acc) r'
          | 93%N :: r' => POk (VArr (rev (v :: acc))) r'
          | e => PErr e
          end
      end
  end
with parse_members (fuel : nat) (acc : list (jsstring * value)) (s : jsstring)
    : parsed value :=
  match fuel with
  | O => PErr s
  | S fuel =>
      match skip_ws s with
      | 34%N :: r =>
          match parse_chars r with
          | PErr e => PErr e
          | POk k r1 =>
              match skip_ws r1 with
              | 58%N :: r2 =>
                  match parse_value fuel r2 with
                  | PErr e => PErr e
                  | POk v r3 =>
                      match skip_ws r3 with
                      | 44%N :: r4 => parse_members fuel (define k v acc) r4
                      | 125%N :: r4 => POk (VObj (define k v acc)) r4
                      | e => PErr e
                      end
                  end
              | e => PErr e
              end
          end
      | e => PErr e
      end
  end.

(** The engine's [SyntaxError] for text that stops being JSON at [at_]. *)
Definition syntax_error (text at_ : jsstring) : exn :=
  Foreign (lit "SyntaxError")
    match at_ with
    | [] => lit "Unexpected end of JSON input"
    | c :: _ =>
        lit "Unexpected token " ++ [c] ++ lit " in JSON at position "
          ++ decimal (N.of_nat (List.length text - List.length at_))
    end.

Definition JSON_parse (text : jsstring) : Result value :=
  match parse_value (2 * List.length text + 2) text with
  | POk v rest =>
      match skip_ws rest with
      | [] => Ok v
      | e => Throw (syntax_error text e)
      end
  | PErr e => Throw (syntax_error text e)
  end.

(** *** The engine's messages, in the wording V8 had when the command was
    written *)

Definition show_nullish (v : value) : jsstring :=
  match v with VNull => lit "null" | _ => lit "undefined" end.

(** The callee of the module's two method calls, as the source writes it. *)
Definition callee (prop : jsstring) : jsstring :=
  if JsString.eqb prop (lit "trim") then lit "this._response.trim"
  else if JsString.eqb prop (lit "replace") then lit "html.replace"
  else prop.

Definition engine_message (f : fault) : jsstring :=
  match f with
  | CannotRead prop base =>
      lit "Cannot read property '" ++ prop ++ lit "' of " ++ show_nullish base
  | NotCallable prop _ => callee prop ++ lit " is not a function"
  end.

(** The integer a Number is, if it is one. *)
Definition integer_of (x : number) : option Z :=
  match x with
  | S754_zero _ => Some 0%Z
  | S754_finite s m e =>
      let sign (n : Z) := if s then (- n)%Z else n in
      match e with
      | Zneg k =>
          if (Z.pos m mod 2 ^ Z.pos k =? 0)%Z
          then Some (sign (Z.pos m / 2 ^ Z.pos k)%Z)
          else None
      | _ => Some (sign (Z.pos m * 2 ^ e)%Z)
      end
  | S754_infinity _ | S754_nan => None
  end.

Definition show_Z (n : Z) : jsstring :=
  match n with
  | Zneg k => lit "-" ++ decimal (Npos k)
  | _ => decimal (Z.to_N n)
  end.

Fixpoint gather {A} (l : list (option A)) : option (list A) :=
  match l with
  | [] => Some []
  | Some a :: l' => option_map (cons a) (gather l')
  | None :: _ => None
  end.

(** [strings.join(',')] *)
Fixpoint commas (l : list jsstring) : jsstring :=
  match l with
  | [] => []
  | [x] => x
  | x :: l' => x ++ lit "," ++ commas l'
  end.

(** [String(v)].  A Number is spelled out when it is an integer below
    10^21 in size, [NaN] or an infinity; the digits of any other Number
    are not worked out, and [None] is the answer. *)
Fixpoint to_string (v : value) : option jsstring :=
  match v with
  | VUndefined => Some (lit "undefined")
  | VNull => Some (lit "null")
  | VBool true => Some (lit "true")
  | VBool false => Some (lit "false")
  | VStr s => Some s
  | VObj _ => Some (lit "[object Object]")
  | VNum S754_nan => Some (lit "NaN")
  | VNum (S754_infinity false) => Some (lit "Infinity")
  | VNum (S754_infinity true) => Some (lit "-Infinity")
  | VNum x =>
      match integer_of x with
      | Some n => if (Z.abs n <? 10 ^ 21)%Z then Some (show_Z n) else None
      | None => None
      end
  | VArr items =>
      option_map commas
        (gather (List.map (fun x => match x with
                                    | VUndefined | VNull => Some []
                                    | _ => to_string x
                                    end) items))
  end.

(** *** A stand-in for [trans]: with no language table at hand it answers
    the identifier itself. *)
Definition trans (key : jsstring) (args : list value) : jsstring := key.


(** *** semver.lt, strict mode.  For a tag that is no string the message
    names the tag as [to_string] spells it, and leaves it out where
    [to_string] has no answer. *)

Module Semver.

Inductive ident : Type :=
| Num (n : N)                (* a numeric identifier *)
| Str (s : jsstring).        (* an alphanumeric identifier *)

Record t : Type := {
  major : N;
  minor : N;
  patch : N;
  pre : list ident
}.

Definition is_digit (c : char16) : bool := ((48 <=? c) && (c <=? 57))%N.

Definition is_ident_char (c : char16) : bool :=
  (is_digit c || ((65 <=? c) && (c <=? 90)) || ((97 <=? c) && (c <=? 122))
   || (c =? 45))%N.

(** [s.split(sep)] *)
Fixpoint split_on (sep : char16) (s : jsstring) : list jsstring :=
  match s with
  | [] => [[]]
  | c :: s' =>
      if (c =? sep)%N then [] :: split_on sep s'
      else match split_on sep s' with
           | w :: ws => (c :: w) :: ws
           | [] => [[c]]
           end
  end.

(** Cut at the first [sep]: what precedes it and, if there is one, what
    follows it. *)
Fixpoint cut (sep : char16) (s : jsstring) : jsstring * option jsstring :=
  match s with
  | [] => ([], None)
  | c :: s' =>
      if (c =? sep)%N then ([], Some s')
      else let (a, b) := cut sep s' in (c :: a, b)
  end.

(** [0|[1-9]\d*] *)
Definition numeric (s : jsstring) : option N :=
  match s with
  | [] => None
  | [48%N] => Some 0%N
  | 48%N :: _ => None
  | _ => if forallb is_digit s then Some (fst (fst (digits 0 0 s))) else None
  end.

(** [0|[1-9]\d*|\d*[a-zA-Z-][a-zA-Z0-9-]*] *)
Definition pre_ident (s : jsstring) : option ident :=
  match s with
  | [] => None
  | _ =>
      if forallb is_digit s then option_map Num (numeric s)
      else if forallb is_ident_char s then Some (Str s)
      else None
  end.

(** [[0-9A-Za-z-]+] *)
Definition build_ident (s : jsstring) : bool :=
  match s with [] => false | _ => forallb is_ident_char s end.

Fixpoint all_some {A} (l : list (option A)) : option (list A) :=
  match l with
  | [] => Some []
  | Some a :: l' => option_map (cons a) (all_some l')
  | None :: _ => None
  end.

Definition MAX_SAFE_INTEGER : N := 9007199254740991.

Definition MAX_LENGTH : nat := 256.

Definition invalid (what : string) (version : jsstring) : exn :=
  Foreign (lit "TypeError") (lit what ++ version).

(** [new SemVer(version)] for a string. *)
Definition parse (version : jsstring) : Result t :=
  if Nat.ltb MAX_LENGTH (List.length version)
  then Throw (invalid "version is longer than 256 characters" [])
  else
    let s := trim version in
    let s := match s with 118%N :: r => r | _ => s end in
    let (front, build) := cut 43%N s in
    let (main, prerelease) := cut 45%N front in
    let build_ok :=
      match build with
      | Some b => forallb build_ident (split_on 46%N b)
      | None => true
      end in
    let identifiers :=
      match prerelease with
      | Some p => all_some (List.map pre_ident (split_on 46%N p))
      | None => Some []
      end in
    match List.map numeric (split_on 46%N main), identifiers, build_ok with
    | [Some a; Some b; Some c], Some ids, true =>
        if (MAX_SAFE_INTEGER <? a)%N then Throw (invalid "Invalid major version" [])
        else if (MAX_SAFE_INTEGER <? b)%N then Throw (invalid "Invalid minor version" [])
        else if (MAX_SAFE_INTEGER <? c)%N then Throw (invalid "Invalid patch version" [])
        else Ok {| major := a; minor := b; patch := c; pre := ids |}
    | _, _, _ => Throw (invalid "Invalid Version: " version)
    end.

(** The order of JavaScript strings: by code units. *)
Fixpoint compare_strings (a b : jsstring) : comparison :=
  match a, b with
  | [], [] => Eq
  | [], _ :: _ => Lt
  | _ :: _, [] => Gt
  | x :: a', y :: b' =>
      match (x ?= y)%N with Eq => compare_strings a' b' | c => c end
  end.

(** Two numeric identifiers are compared as Numbers. *)
Definition compareIdentifiers (a b : ident) : comparison :=
  match a, b with
  | Num x, Num y =>
      match SFcompare (number_of_Z (Z.of_N x)) (number_of_Z (Z.of_N y)) with
      | Some c => c
      | None => Eq
      end
  | Num _, Str _ => Lt
  | Str _, Num _ => Gt
  | Str x, Str y => compare_strings x y
  end.

Fixpoint compare_pre_loop (a b : list ident) : comparison :=
  match a, b with
  | [], [] => Eq
  | _ :: _, [] => Gt
  | [], _ :: _ => Lt
  | x :: a', y :: b' =>
      match compareIdentifiers x y with Eq => compare_pre_loop a' b' | c => c end
  end.

(** A version without prerelease identifiers is above one with. *)
Definition comparePre (a b : t) : comparison :=
  match pre a, pre b with
  | _ :: _, [] => Lt
  | [], _ :: _ => Gt
  | [], [] => Eq
  | x, y => compare_pre_loop x y
  end.

Definition compareMain (a b : t) : comparison :=
  match (major a ?= major b)%N with
  | Eq => match (minor a ?= minor b)%N with
          | Eq => (patch a ?= patch b)%N
          | c => c
          end
  | c => c
  end.

Definition compare (a b : t) : comparison :=
  match compareMain a b with Eq => comparePre a b | c => c end.

(** [semver.lt(a, b)]: both versions are parsed, [a] first. *)
Definition lt (a : jsstring) (b : value) : Result bool :=
  match parse a with
  | Throw e => Throw e
  | Ok va =>
      match b with
      | VStr sb =>
          match parse sb with
          | Throw e => Throw e
          | Ok vb => Ok match compare va vb with Lt => true | _ => false end
          end
      | _ =>
          Throw match to_string b with
                | Some shown => invalid "Invalid Version: " shown
                | None => invalid "Invalid Version" []
                end
      end
  end.

End Semver.

(** *** A stand-in for showdown's converter.  It knows the falsy-input
    shortcut of [makeHtml], ATX headings and one-line paragraphs, and
    leaves inline HTML alone; that is what the examples use. *)

Module Showdown.

Fixpoint hashes (s : jsstring) : nat * jsstring :=
  match s with
  | 35%N :: s' => let (n, r) := hashes s' in (S n, r)
  | _ => (0, s)
  end.

Definition lower (c : char16) : char16 :=
  if ((65 <=? c) && (c <=? 90))%N then (c + 32)%N else c.

(** The header id of the github flavour, on words and spaces. *)
Definition header_id (title : jsstring) : jsstring :=
  List.map (fun c => if (c =? 32)%N then 45%N else lower c)
    (List.filter (fun c => Semver.is_ident_char c || (c =? 32)%N || (c =? 95)%N) title).

Definition block (start : nat) (line : jsstring) : option jsstring :=
  match trim line with
  | [] => None
  | text =>
      match hashes text with
      | (S n, 32%N :: title) =>
          let level := decimal (N.of_nat (start - 1 + S n)) in
          Some (lit "<h" ++ level ++ lit " id=" ++ dquote ++ header_id (trim title)
                  ++ dquote ++ lit ">" ++ trim title ++ lit "</h" ++ level ++ lit ">")
      | _ => Some (lit "<p>" ++ text ++ lit "</p>")
      end
  end.

Fixpoint join (sep : jsstring) (l : list jsstring) : jsstring :=
  match l with
  | [] => []
  | [x] => x
  | x :: l' => x ++ sep ++ join sep l'
  end.

Fixpoint keep {A} (l : list (option A)) : list A :=
  match l with
  | [] => []
  | Some a :: l' => a :: keep l'
  | None :: l' => keep l'
  end.

Definition makeHtml (options : converter_options) (text : value) : Result value :=
  if negb (truthy text) then Ok text
  else
    match text with
    | VStr s =>
        Ok (VStr (join [10%N]
                    (keep (List.map (block (headerLevelStart options))
                                    (Semver.split_on 10%N s)))))
    | _ => Throw (Foreign (lit "TypeError") (lit "text.replace is not a function"))
    end.

End Showdown.

End Reference.

(** *** Hosts and feeds for the examples *)

(** Text with double quotes in it, written with a backquote for each. *)
Definition quoted (s : string) : jsstring :=
  List.map (fun c => if (c =? 96)%N then 34%N else c) (lit s).

(** A host whose network answers every request with [body] and whose
    settings hold [checkForBeta = beta]. *)
Definition response_with (body : jsstring) : value :=
  VObj [(lit "statusCode", VNum (number_of_Z 200)); (lit "body", VStr body)].

Definition serving (body : jsstring) (beta : bool) : host :=
  {| got := fun _ => Fulfilled (response_with body);
     config_get := fun key =>
       if JsString.eqb key (lit "checkForBeta") then VBool beta else VUndefined |}.

(** A host whose network rejects every request with [error]. *)
Definition failing (error : got_error) : host :=
  {| got := fun _ => Rejected error;
     config_get := fun _ => VBool false |}.

Definition repo_url : jsstring := lit "https://api.github.com/repos/Zettlr/Zettlr/".

(** [_check] and [run] over the reference collaborators. *)
Definition check_ref (CUR_VER : jsstring) (h : host) : M UpdateData :=
  _check Reference.trans Reference.JSON_parse Reference.Semver.lt
    Reference.Showdown.makeHtml Reference.engine_message repo_url CUR_VER h.

Definition run_ref (CUR_VER : jsstring) (h : host) : process -> Result bool * process :=
  run Reference.trans Reference.JSON_parse Reference.Semver.lt
    Reference.Showdown.makeHtml Reference.engine_message repo_url CUR_VER h.

(** The scenario feed of the specification. *)
Definition feed_1_3_0 : jsstring :=
  quoted "[{`tag_name`:`1.3.0`,`draft`:false,`prerelease`:false,`body`:`# Notes`,`html_url`:`https://x/1.3.0`}]".

(** A fresh process: the command as constructed, nothing logged. *)
Definition boot : process :=
  {| this_ := constructor; events := []; unhandled := [] |}.

(** The scenario's outcome: the data of release 1.3.0. *)
Definition update_1_3_0 : UpdateData :=
  {| newVer := VStr (lit "1.3.0");
     curVer := lit "1.2.0";
     changelog := quoted "<h2 id=`notes`>Notes</h2>";
     releaseURL := VStr (lit "https://x/1.3.0");
     isBeta := VBool false;
     downloadURL := [] |}.

(** The record that feed holds, as [JSON.parse] builds it. *)
Definition record_1_3_0 : list (jsstring * value) :=
  [(lit "tag_name", VStr (lit "1.3.0"));
   (lit "draft", VBool false);
   (lit "prerelease", VBool false);
   (lit "body", VStr (lit "# Notes"));
   (lit "html_url", VStr (lit "https://x/1.3.0"))].

(** The same first record, followed by an older release. *)
Definition feed_1_3_0_and_older : jsstring :=
  quoted "[{`tag_name`:`1.3.0`,`draft`:false,`prerelease`:false,`body`:`# Notes`,`html_url`:`https://x/1.3.0`}, {`tag_name`:`1.2.0`,`draft`:false,`prerelease`:false,`body`:``,`html_url`:`https://x/1.2.0`}]".

Definition record_1_2_0 : list (jsstring * value) :=
  [(lit "tag_name", VStr (lit "1.2.0"));
   (lit "draft", VBool false);
   (lit "prerelease", VBool false);
   (lit "body", VStr []);
   (lit "html_url", VStr (lit "https://x/1.2.0"))].

(** White space: a space, a line feed, a no-break space, a tab, a line
    separator. *)
Definition white_space_only : jsstring := [32; 10; 160; 9; 8232]%N.

(** A prerelease. *)
Definition feed_beta : jsstring :=
  quoted "[{`tag_name`:`1.3.0-beta.1`,`draft`:false,`prerelease`:true,`body`:`Try it`,`html_url`:`https://x/beta`}]".

(** A release whose tag is no semantic version. *)
Definition feed_nightly : jsstring :=
  quoted "[{`tag_name`:`nightly`,`draft`:false,`prerelease`:false,`body`:`x`,`html_url`:`https://x/n`}]".

(** A release without notes, as the API reports it. *)
Definition feed_no_notes : jsstring :=
  quoted "[{`tag_name`:`1.3.0`,`draft`:false,`prerelease`:false,`body`:null,`html_url`:`https://x/1.3.0`}]".

(** A release whose notes hold inline HTML before a link. *)
Definition feed_abbr : jsstring :=
  quoted "[{`tag_name`:`1.3.0`,`draft`:false,`prerelease`:false,`body`:`<abbr title='t'>abbr</abbr> <a href='https://x'>link</a>`,`html_url`:`https://x/1.3.0`}]".

(** The HTML of a link whose text runs over two lines, as in notes that
    read [See [the], line break, [docs](https://x/docs)]: the anchor holds
    the line break. *)
Definition wrapped_link_html : jsstring :=
  quoted "<p>See <a href=`https://x/docs`>the" ++ [10%N] ++ lit "docs</a></p>".

(** Inline HTML whose tag name starts with [a], then a link. *)
Definition abbr_link_html : jsstring :=
  quoted "<p><abbr title=`t`>abbr</abbr> <a href=`https://x`>link</a></p>".

Definition abbr_link_rewritten : jsstring :=
  quoted "<p><abbr title=`t` onclick=`require('electron').shell.openExternal(this.getAttribute('href')); return false;` target=`_blank`>abbr</abbr> <a href=`https://x`>link</a></p>".

(** A link on one line and its rewriting. *)
Definition link_html : jsstring :=
  quoted "<p>See <a href=`https://x/docs`>the docs</a>.</p>".

Definition link_rewritten : jsstring :=
  quoted "<p>See <a href=`https://x/docs` onclick=`require('electron').shell.openExternal(this.getAttribute('href')); return false;` target=`_blank`>the docs</a>.</p>".

(** The scenario feed with a property the command does not read. *)
Definition feed_1_3_0_named : jsstring :=
  quoted "[{`name`:`Spring`,`tag_name`:`1.3.0`,`draft`:false,`prerelease`:false,`body`:`# Notes`,`html_url`:`https://x/1.3.0`}]".

(** A release record without the two flags. *)
Definition feed_bare : jsstring :=
  quoted "[{`tag_name`:`1.3.0`,`body`:`# Notes`,`html_url`:`https://x/1.3.0`}]".

Definition record_bare : list (jsstring * value) :=
  [(lit "tag_name", VStr (lit "1.3.0"));
   (lit "body", VStr (lit "# Notes"));
   (lit "html_url", VStr (lit "https://x/1.3.0"))].

(** A body that is an object, as the API answers when it has no list. *)
Definition feed_message : jsstring := quoted "{`message`:`Not Found`}".

(** A host whose network fulfils with [null]. *)
Definition answering_null : host :=
  {| got := fun _ => Fulfilled VNull;
     config_get := fun _ => VBool false |}.

(** A host whose responses carry no body. *)
Definition bodiless : host :=
  {| got := fun _ => Fulfilled (VObj [(lit "statusCode", VNum (number_of_Z 200))]);
     config_get := fun _ => VBool false |}.

(** A host that answers like [serving body false] and holds other
    settings besides. *)
Definition serving_with_settings (body : jsstring) : host :=
  {| got := fun _ => Fulfilled (response_with body);
     config_get := fun key =>
       if JsString.eqb key (lit "checkForBeta") then VBool false
       else VStr (lit "en-US") |}.

(** A rejection with neither status nor code. *)
Definition hung_up : got_error :=
  {| statusCode := None; code := None; message := lit "socket hang up" |}.

(** A rejection with status 503 and the code [ENOTFOUND]. *)
Definition unavailable_and_enotfound : got_error :=
  {| statusCode := Some 503%Z;
     code := Some (lit "ENOTFOUND");
     message := lit "getaddrinfo ENOTFOUND api.github.com" |}.

(** Whether [p] occurs in [s]. *)
Fixpoint occursb (p s : jsstring) : bool :=
  match starts_with p s with
  | Some _ => true
  | None =>
      match s with
      | [] => false
      | _ :: s' => occursb p s'
      end
  end.

(** Rejections of the request. *)
Definition service_unavailable : got_error :=
  {| statusCode := Some 503%Z;
     code := None;
     message := lit "Response code 503 (Service Unavailable)" |}.

Definition offline : got_error :=
  {| statusCode := None;
     code := Some (lit "ENOTFOUND");
     message := lit "getaddrinfo ENOTFOUND api.github.com" |}.

Definition status_and_enotfound : got_error :=
  {| statusCode := Some 200%Z;
     code := Some (lit "ENOTFOUND");
     message := lit "getaddrinfo ENOTFOUND api.github.com" |}.

(* ===================================================================== *)
(** ** The decision, stated apart from the method *)
(* ===================================================================== *)

Definition and_then {A B} (r : Result A) (k : A -> Result B) : Result B :=
  match r with
  | Ok a => k a
  | Throw e => Throw e
  end.

(** The value of property [prop] of a record, [undefined] when absent. *)
Definition field (props : list (jsstring * value)) (prop : jsstring) : value :=
  match lookup prop props with Some v => v | None => VUndefined end.

(** [first.prop], where reading [first] itself may have thrown. *)
Definition read (first : Result value) (prop : jsstring) : Result value :=
  and_then first (fun r0 => member r0 prop).

(** [m], run on [st], completes with [r] and leaves [st] as it was. *)
Definition returns {A} (st : UpdateCheck) (m : M A) (r : Result A) : Prop :=
  m st = (r, st).

(** The user's setting, as a flag. *)
Definition acceptBeta (h : host) : bool := truthy (config_get h (lit "checkForBeta")).

(** Which of the three status tests of the [catch] block fires first. *)
Definition status_class (c : Z) : option jsstring :=
  if (500 <=? c)%Z then Some (lit "dialog.update.server_error")
  else if (400 <=? c)%Z then Some (lit "dialog.update.client_error")
  else if (300 <=? c)%Z then Some (lit "dialog.update.redirect_error")
  else None.

(** [p] occurs in [s]. *)
Definition occurs (p s : jsstring) : Prop := exists a b, s = a ++ p ++ b.

(** [s] is [t] with some characters left out. *)
Inductive subseq : jsstring -> jsstring -> Prop :=
| subseq_nil : subseq [] []
| subseq_keep c s t : subseq s t -> subseq (c :: s) (c :: t)
| subseq_skip c s t : subseq s t -> subseq s (c :: t).

(** No line terminator in [s]. *)
Definition one_line (s : jsstring) : Prop :=
  Forall (fun c => is_line_terminator c = false) s.

(** A character that is neither a line terminator nor [stop]. *)
Definition plain (stop : char16) (c : char16) : Prop :=
  is_line_terminator c = false /\ c <> stop.


(** The parser's own exception is what the check fails with. *)
Definition escapes_raw {A B} (parsed : Result A) (outcome : Result B) : Prop :=
  exists e, parsed = Throw e /\ outcome = Throw e.

Section Decision.

Variable trans : jsstring -> list value -> jsstring.
Variable semver_lt : jsstring -> value -> Result bool.
Variable makeHtml : converter_options -> value -> Result value.
Variable CUR_VER : jsstring.

(** The two errors [_parseResponse] creates itself. *)
Definition NoDataError : exn := Error (trans (lit "dialog.update.no_data") []).

Definition NoUpdateAvailableError : exn :=
  Error (trans (lit "dialog.update.no_update") []).

(** Lines 93-127 as a function of [this._response[0]]. *)
Definition verdict (h : host) (first : Result value) : Result UpdateData :=
  let configured := config_get h (lit "checkForBeta") in
  and_then
    (if negb (truthy configured)
     then and_then (read first (lit "prerelease"))
                   (fun p => Ok (VBool (negb (truthy p))))
     else Ok configured) (fun acceptRelease =>
  and_then (read first (lit "tag_name")) (fun tag =>
  and_then (semver_lt CUR_VER tag) (fun newer =>
  and_then
    (if (newer : bool)
     then if truthy acceptRelease
          then and_then (read first (lit "draft")) (fun d => Ok (negb (truthy d)))
          else Ok false
     else Ok false) (fun cond =>
  if (cond : bool)
  then
    and_then (read first (lit "body")) (fun body =>
    and_then (makeHtml conv body) (fun html =>
    and_then (string_method (lit "replace") html replace_aRE) (fun html =>
    and_then (read first (lit "tag_name")) (fun tag_name =>
    and_then (read first (lit "html_url")) (fun html_url =>
    and_then (read first (lit "prerelease")) (fun prerelease =>
    Ok {| newVer := tag_name;
          curVer := CUR_VER;
          changelog := html;
          releaseURL := html_url;
          isBeta := prerelease;
          downloadURL := [] |}))))))
  else Throw NoUpdateAvailableError)))).

(** The same decision with the setting reduced to the flag [beta]: what the
    check depends on besides the first record. *)
Definition decision (beta : bool) (first : Result value) : Result UpdateData :=
  and_then
    (if beta then Ok true
     else and_then (read first (lit "prerelease")) (fun p => Ok (negb (truthy p))))
    (fun accept =>
  and_then (read first (lit "tag_name")) (fun tag =>
  and_then (semver_lt CUR_VER tag) (fun newer =>
  and_then
    (if newer && accept
     then and_then (read first (lit "draft")) (fun d => Ok (negb (truthy d)))
     else Ok false) (fun cond =>
  if (cond : bool)
  then
    and_then (read first (lit "body")) (fun body =>
    and_then (makeHtml conv body) (fun html =>
    and_then (string_method (lit "replace") html replace_aRE) (fun html =>
    and_then (read first (lit "html_url")) (fun html_url =>
    and_then (read first (lit "prerelease")) (fun prerelease =>
    Ok {| newVer := tag;
          curVer := CUR_VER;
          changelog := html;
          releaseURL := html_url;
          isBeta := prerelease;
          downloadURL := [] |})))))
  else Throw NoUpdateAvailableError)))).

(** The transport-error taxonomy in the words of its description: a status
    of 500 and above, of 400 to 499, of 300 to 399, no status but the code
    [ENOTFOUND], and any other failure. *)
Definition classify_as_described (error : got_error) : exn :=
  let unknown :=
    Error (lit "Could not check for updates. " ++ to_string_opt (code error)
             ++ lit ": " ++ message error) in
  match statusCode error with
  | Some c =>
      if (500 <=? c)%Z
      then Error (trans (lit "dialog.update.server_error") [VNum (number_of_Z c)])
      else if (400 <=? c)%Z
      then Error (trans (lit "dialog.update.client_error") [VNum (number_of_Z c)])
      else if (300 <=? c)%Z
      then Error (trans (lit "dialog.update.redirect_error") [VNum (number_of_Z c)])
      else unknown
  | None =>
      match code error with
      | Some c =>
          if JsString.eqb c (lit "ENOTFOUND")
          then Error (trans (lit "dialog.update.connection_error") [])
          else unknown
      | None => unknown
      end
  end.

End Decision.

(* ===================================================================== *)
(** ** Properties *)
(* ===================================================================== *)

(** *** Strings *)

Lemma eqb_eq a b : JsString.eqb a b = true <-> a = b.
Proof.
  unfold JsString.eqb. destruct (list_eq_dec N.eq_dec a b); split; congruence.
Qed.

Lemma eqb_refl a : JsString.eqb a a = true.
Proof. apply eqb_eq. reflexivity. Qed.

Lemma starts_with_app p s : starts_with p (p ++ s) = Some s.
Proof.
  induction p as [|a p IH]; simpl; [reflexivity|].
  rewrite N.eqb_refl. exact IH.
Qed.

(** *** Blank bodies and [trim] *)

Lemma trim_start_blank s : blank s -> trim_start s = [].
Proof.
  induction 1 as [|c s Hc _ IH]; simpl; [reflexivity|].
  rewrite Hc. exact IH.
Qed.

Lemma trim_start_nil_blank s : trim_start s = [] -> blank s.
Proof.
  induction s as [|c s IH]; simpl; intros H.
  - constructor.
  - destruct (is_trimmed c) eqn:Hc; [|discriminate].
    constructor; [exact Hc | apply IH; exact H].
Qed.

Lemma blank_rev s : blank s -> blank (rev s).
Proof. unfold blank. intros H. apply Forall_rev. exact H. Qed.

Lemma trim_blank s : blank s -> trim s = [].
Proof.
  intros H. unfold trim, trim_end.
  rewrite (trim_start_blank H). reflexivity.
Qed.

(** [trim_start] gives back a suffix that is empty or starts with a
    character [trim] keeps. *)
Lemma trim_start_fixed s : trim_start (trim_start s) = trim_start s.
Proof.
  induction s as [|c s IH]; simpl; [reflexivity|].
  destruct (is_trimmed c) eqn:Hc; [exact IH|].
  simpl. rewrite Hc. reflexivity.
Qed.

Lemma trim_nil_blank s : trim s = [] -> blank s.
Proof.
  unfold trim, trim_end. intros H.
  apply (f_equal (@rev char16)) in H. rewrite rev_involutive in H. simpl in H.
  apply trim_start_nil_blank, blank_rev in H. rewrite rev_involutive in H.
  apply trim_start_nil_blank. rewrite <- trim_start_fixed.
  apply trim_start_blank. exact H.
Qed.

Lemma blank_iff_trim s : blank s <-> trim s = [].
Proof. split; [apply trim_blank | apply trim_nil_blank]. Qed.

Lemma blankb_spec s : blankb s = true <-> blank s.
Proof. unfold blankb, blank. rewrite forallb_forall, Forall_forall. reflexivity. Qed.

Lemma not_blank_trim s : ~ blank s -> JsString.eqb (trim s) [] = false.
Proof.
  intros H. destruct (JsString.eqb (trim s) []) eqn:E; [|reflexivity].
  apply eqb_eq, trim_nil_blank in E. contradiction.
Qed.

#[local] Arguments lit : simpl never.

(** *** Reasoning about method bodies *)

Lemma member_record props prop : member (VObj props) prop = Ok (field props prop).
Proof. unfold member, field. destruct (lookup prop props); reflexivity. Qed.

Lemma returns_ret {A} st (a : A) : returns st (ret a) (Ok a).
Proof. reflexivity. Qed.

Lemma returns_throw {A} st e : returns st (@throw A e) (Throw e).
Proof. reflexivity. Qed.

Lemma returns_lift {A} st (r : Result A) : returns st (lift r) r.
Proof. reflexivity. Qed.

Lemma returns_bind {A B} st (m : M A) (k : A -> M B) r f :
  returns st m r ->
  (forall a, returns st (k a) (f a)) ->
  returns st (bind m k) (and_then r f).
Proof.
  unfold returns, bind. intros -> Hk.
  destruct r as [a|e]; [apply Hk | reflexivity].
Qed.

Lemma returns_if {A} st (b : bool) (m1 m2 : M A) r1 r2 :
  returns st m1 r1 -> returns st m2 r2 ->
  returns st (if b then m1 else m2) (if b then r1 else r2).
Proof. destruct b; trivial. Qed.

Lemma bind_lift_ok {A B} (r : Result A) (a : A) (k : A -> M B) st :
  r = Ok a -> bind (lift r) k st = k a st.
Proof. intros ->. reflexivity. Qed.

Lemma bind_lift_throw {A B} (r : Result A) e (k : A -> M B) st :
  r = Throw e -> bind (lift r) k st = (Throw e, st).
Proof. intros ->. reflexivity. Qed.

Lemma bind_set_response {B} v (k : unit -> M B) st :
  bind (set_response v) k st = k tt {| _response := v |}.
Proof. reflexivity. Qed.

Lemma returns_first_release feed prop :
  returns {| _response := feed |} (first_release prop) (read (index0 feed) prop).
Proof.
  unfold returns, first_release, read, bind, get_response, lift, and_then.
  cbn. destruct (index0 feed); reflexivity.
Qed.

Ltac returns_step :=
  first [ apply returns_first_release
        | apply returns_lift
        | apply returns_ret
        | apply returns_throw
        | apply returns_if
        | apply returns_bind; [|intro] ].

(** Case analysis on a scrutinee that is not itself a case analysis. *)
Ltac split_match :=
  match goal with
  | |- context [match ?x with _ => _ end] =>
      lazymatch x with
      | context [match _ with _ => _ end] => fail
      | _ => destruct x eqn:?
      end
  end.

Ltac split_match_in H :=
  match type of H with
  | context [match ?x with _ => _ end] =>
      lazymatch x with
      | context [match _ with _ => _ end] => fail
      | _ => destruct x eqn:?
      end
  end.

Section Properties.

Variable trans : jsstring -> list value -> jsstring.
Variable JSON_parse : jsstring -> Result value.
Variable semver_lt : jsstring -> value -> Result bool.
Variable makeHtml : converter_options -> value -> Result value.
Variable engine_message : fault -> jsstring.
Variable REPO_URL CUR_VER : jsstring.

Local Abbreviation parseResponse h :=
  (_parseResponse trans JSON_parse semver_lt makeHtml CUR_VER h).
Local Abbreviation check h :=
  (_check trans JSON_parse semver_lt makeHtml engine_message REPO_URL CUR_VER h).
Local Abbreviation request := (releases_request REPO_URL).
Local Abbreviation verdict_ := (verdict trans semver_lt makeHtml CUR_VER).
Local Abbreviation decision_ := (decision trans semver_lt makeHtml CUR_VER).
Local Abbreviation NoUpdate := (NoUpdateAvailableError trans).
Local Abbreviation NoData := (NoDataError trans).

(** *** [_parseResponse] and [_check], step by step *)

(** Once the body has parsed, [_parseResponse] is [verdict] of the first
    record, and the parsed feed is what stays in [this._response]. *)
Lemma parseResponse_parsed h (this : UpdateCheck) (body : jsstring) (feed : value) :
  _response this = VStr body ->
  ~ blank body ->
  JSON_parse body = Ok feed ->
  parseResponse h this = (verdict_ h (index0 feed), {| _response := feed |}).
Proof.
  intros Hthis Hbody Hfeed. unfold _parseResponse.
  cbn [bind get_response]. rewrite Hthis, (not_blank_trim Hbody).
  rewrite (bind_lift_ok _ _ Hfeed), bind_set_response.
  unfold verdict. cbv zeta.
  repeat returns_step.
Qed.

Lemma verdict_decision h first : verdict_ h first = decision_ (acceptBeta h) first.
Proof.
  unfold verdict, decision, acceptBeta, read, and_then.
  destruct first as [r0|e];
    destruct (truthy (config_get h (lit "checkForBeta"))) eqn:Hcfg;
    cbn [negb]; try reflexivity.
  - destruct (member r0 (lit "tag_name")) as [tag|]; [|reflexivity].
    destruct (semver_lt CUR_VER tag) as [[|]|]; try reflexivity.
    rewrite Hcfg. reflexivity.
  - destruct (member r0 (lit "prerelease")) as [p|]; [|reflexivity].
    destruct (member r0 (lit "tag_name")) as [tag|]; [|reflexivity].
    destruct (semver_lt CUR_VER tag) as [[|]|]; reflexivity.
Qed.

(** A body that is no JSON: the parser's exception leaves [_parseResponse]
    as it is, and the body stays in [this._response]. *)
Lemma parseResponse_unparsable h (this : UpdateCheck) (body : jsstring) (e : exn) :
  _response this = VStr body ->
  ~ blank body ->
  JSON_parse body = Throw e ->
  parseResponse h this = (Throw e, this).
Proof.
  intros Hthis Hbody Hfeed. unfold _parseResponse.
  cbn [bind get_response]. rewrite Hthis, (not_blank_trim Hbody).
  rewrite (bind_lift_throw _ _ Hfeed). reflexivity.
Qed.

Lemma parseResponse_blank h (this : UpdateCheck) (body : jsstring) :
  _response this = VStr body ->
  blank body ->
  parseResponse h this = (Throw NoData, this).
Proof.
  intros Hthis Hblank. unfold _parseResponse.
  cbn [bind get_response]. rewrite Hthis, (trim_blank Hblank). reflexivity.
Qed.

Lemma check_rejected h (this : UpdateCheck) (error : got_error) :
  got h request = Rejected error ->
  check h this = (Throw (classify trans error), this).
Proof. intros H. unfold _check. rewrite H. reflexivity. Qed.

Lemma check_fulfilled h (this : UpdateCheck) (response b : value) :
  got h request = Fulfilled response ->
  member response (lit "body") = Ok b ->
  check h this = parseResponse h {| _response := b |}.
Proof.
  intros H Hb. unfold _check. rewrite H.
  rewrite bind_set_response. cbn [bind get_response _response].
  rewrite Hb. reflexivity.
Qed.

(** A response of which [body] cannot be read: the [catch] block gets the
    engine's exception, and the response stays in [this._response]. *)
Lemma check_unreadable h (this : UpdateCheck) (response : value) (e : exn) :
  got h request = Fulfilled response ->
  member response (lit "body") = Throw e ->
  check h this =
  (Throw (classify trans (caught engine_message e)), {| _response := response |}).
Proof.
  intros H Hb. unfold _check. rewrite H.
  rewrite bind_set_response. cbn [bind get_response _response].
  rewrite Hb. reflexivity.
Qed.

(** With a response in hand [_check] writes [this._response] before it
    reads it. *)
Lemma check_overwrites h (a b : UpdateCheck) (response : value) :
  got h request = Fulfilled response ->
  check h a = check h b.
Proof.
  intros H. unfold _check. rewrite H, !bind_set_response. reflexivity.
Qed.

(** The decision for a feed that opens with a record. *)
Lemma decision_record beta props newer :
  semver_lt CUR_VER (field props (lit "tag_name")) = Ok newer ->
  decision_ beta (Ok (VObj props)) =
  if newer && (beta || negb (truthy (field props (lit "prerelease"))))
       && negb (truthy (field props (lit "draft")))
  then
    and_then (makeHtml conv (field props (lit "body"))) (fun html =>
    and_then (string_method (lit "replace") html replace_aRE) (fun html =>
    Ok {| newVer := field props (lit "tag_name");
          curVer := CUR_VER;
          changelog := html;
          releaseURL := field props (lit "html_url");
          isBeta := field props (lit "prerelease");
          downloadURL := [] |}))
  else Throw NoUpdate.
Proof.
  intros Hlt. unfold decision, read. cbn [and_then].
  rewrite !member_record.
  destruct beta; cbn [and_then]; rewrite Hlt; cbn [and_then];
    destruct newer, (truthy (field props (lit "prerelease"))),
      (truthy (field props (lit "draft"))); reflexivity.
Qed.

Lemma and_then_ok {A B} (r : Result A) (k : A -> Result B) (b : B) :
  and_then r k = Ok b -> exists a, r = Ok a /\ k a = Ok b.
Proof.
  destruct r as [a|e]; [|discriminate].
  intros H. exists a. split; [reflexivity | exact H].
Qed.

Lemma string_method_ok {A} name recv (method : jsstring -> A) (a : A) :
  string_method name recv method = Ok a ->
  exists s, recv = VStr s /\ a = method s.
Proof.
  destruct recv; try discriminate.
  intros [= <-]. eexists. split; reflexivity.
Qed.

(** What a produced [UpdateData] tells about the first record. *)
Lemma decision_ok_inv beta first d :
  decision_ beta first = Ok d ->
  exists r0 body html,
    first = Ok r0 /\
    member r0 (lit "tag_name") = Ok (newVer d) /\
    semver_lt CUR_VER (newVer d) = Ok true /\
    (beta = true \/ truthy (isBeta d) = false) /\
    (exists draft, member r0 (lit "draft") = Ok draft /\ truthy draft = false) /\
    member r0 (lit "body") = Ok body /\
    makeHtml conv body = Ok (VStr html) /\
    changelog d = replace_aRE html /\
    curVer d = CUR_VER /\
    member r0 (lit "html_url") = Ok (releaseURL d) /\
    member r0 (lit "prerelease") = Ok (isBeta d) /\
    downloadURL d = [].
Proof.
  intros H. unfold decision in H.
  apply and_then_ok in H as (accept & Hacc & H).
  apply and_then_ok in H as (tag & Htag & H).
  apply and_then_ok in H as (newer & Hlt & H).
  apply and_then_ok in H as (cond & Hcond & H).
  destruct cond; [|discriminate].
  apply and_then_ok in H as (body & Hbody & H).
  apply and_then_ok in H as (html & Hhtml & H).
  apply and_then_ok in H as (html' & Hrep & H).
  apply and_then_ok in H as (html_url & Hurl & H).
  apply and_then_ok in H as (prerelease & Hpre & H).
  injection H as <-. cbn [newVer curVer changelog releaseURL isBeta downloadURL].
  destruct first as [r0|]; [|discriminate]. cbn [read and_then] in *.
  apply string_method_ok in Hrep as (text & -> & ->).
  destruct (newer && accept) eqn:Hboth; [|discriminate].
  apply andb_true_iff in Hboth as [-> ->].
  apply and_then_ok in Hcond as (draft & Hdraft & Hcond).
  injection Hcond as Hcond. apply negb_true_iff in Hcond.
  exists r0, body, text. repeat split; trivial.
  - destruct beta; [left; reflexivity|right].
    rewrite Hpre in Hacc. cbn [and_then] in Hacc.
    injection Hacc as Hacc. apply negb_true_iff. exact Hacc.
  - exists draft. split; assumption.
Qed.

(** [_parseResponse] returns only after it has parsed a non-blank body. *)
Lemma parseResponse_ok_inv h this d :
  fst (parseResponse h this) = Ok d ->
  exists body feed,
    _response this = VStr body /\ ~ blank body /\ JSON_parse body = Ok feed /\
    decision_ (acceptBeta h) (index0 feed) = Ok d.
Proof.
  intros H. destruct (_response this) as [| | | |body| |] eqn:Hthis;
    try (unfold _parseResponse in H; cbn [bind get_response] in H;
         rewrite Hthis in H; discriminate).
  exists body.
  destruct (blankb body) eqn:Hb.
  - apply blankb_spec in Hb. rewrite (parseResponse_blank h _ Hthis Hb) in H.
    discriminate.
  - assert (Hnb : ~ blank body).
    { intros Hbl. apply blankb_spec in Hbl. congruence. }
    destruct (JSON_parse body) as [feed|e] eqn:Hfeed.
    + exists feed. rewrite (parseResponse_parsed h _ Hthis Hnb Hfeed) in H.
      cbn [fst] in H. rewrite verdict_decision in H. auto.
    + rewrite (parseResponse_unparsable h _ Hthis Hnb Hfeed) in H. discriminate.
Qed.

(** *** The classes of transport errors *)

Lemma status_class_500 c :
  (500 <= c)%Z <-> status_class c = Some (lit "dialog.update.server_error").
Proof.
  unfold status_class.
  destruct (Z.leb_spec 500 c), (Z.leb_spec 400 c), (Z.leb_spec 300 c);
    split; intros Hx; try reflexivity; try discriminate; lia.
Qed.

Lemma status_class_400 c :
  (400 <= c < 500)%Z <-> status_class c = Some (lit "dialog.update.client_error").
Proof.
  unfold status_class.
  destruct (Z.leb_spec 500 c), (Z.leb_spec 400 c), (Z.leb_spec 300 c);
    split; intros Hx; try reflexivity; try discriminate; lia.
Qed.

Lemma status_class_300 c :
  (300 <= c < 400)%Z <-> status_class c = Some (lit "dialog.update.redirect_error").
Proof.
  unfold status_class.
  destruct (Z.leb_spec 500 c), (Z.leb_spec 400 c), (Z.leb_spec 300 c);
    split; intros Hx; try reflexivity; try discriminate; lia.
Qed.

Lemma status_class_none c : (c < 300)%Z <-> status_class c = None.
Proof.
  unfold status_class.
  destruct (Z.leb_spec 500 c), (Z.leb_spec 400 c), (Z.leb_spec 300 c);
    split; intros Hx; try reflexivity; try discriminate; lia.
Qed.

Lemma classify_status error c key :
  status_class c = Some key ->
  statusCode error = Some c ->
  classify trans error = Error (trans key [VNum (number_of_Z c)]).
Proof.
  unfold status_class, classify. intros Hk ->.
  destruct (500 <=? c)%Z; [injection Hk as <-; reflexivity|].
  destruct (400 <=? c)%Z; [injection Hk as <-; reflexivity|].
  destruct (300 <=? c)%Z; [injection Hk as <-; reflexivity|discriminate].
Qed.

Lemma classify_below_300 error :
  (statusCode error = None \/ exists c, statusCode error = Some c /\ (c < 300)%Z) ->
  classify trans error =
  if match code error with
     | Some k => JsString.eqb k (lit "ENOTFOUND")
     | None => false
     end
  then Error (trans (lit "dialog.update.connection_error") [])
  else Error (lit "Could not check for updates. " ++ to_string_opt (code error)
                ++ lit ": " ++ message error).
Proof.
  unfold classify. intros [->|(c & -> & Hc)]; [reflexivity|].
  apply status_class_none in Hc. unfold status_class in Hc.
  destruct (500 <=? c)%Z; [discriminate|].
  destruct (400 <=? c)%Z; [discriminate|].
  destruct (300 <=? c)%Z; [discriminate|reflexivity].
Qed.

(** *** The claims *)

(** C1, as amended.  When the response body is not blank and parses to a
    feed that opens with a record whose tag [semver.lt] can compare with
    the running version, [_check] returns an [UpdateData] only if the tag
    is newer than the running version, the record is no draft, and betas
    are accepted or the record is no prerelease; in every other such case
    it fails with the [no_update] error; and when these conditions hold it
    does return an [UpdateData], provided the converter renders the
    record's body to a string (the one place where the converter's result
    is needed). *)
Theorem update_iff_acceptable h this response body props rest newer :
  got h request = Fulfilled response ->
  member response (lit "body") = Ok (VStr body) ->
  ~ blank body ->
  JSON_parse body = Ok (VArr (VObj props :: rest)) ->
  semver_lt CUR_VER (field props (lit "tag_name")) = Ok newer ->
  let outcome := fst (check h this) in
  let acceptable :=
    newer = true /\
    truthy (field props (lit "draft")) = false /\
    (acceptBeta h = true \/ truthy (field props (lit "prerelease")) = false) in
  ((exists d, outcome = Ok d) -> acceptable) /\
  (~ acceptable -> outcome = Throw NoUpdate) /\
  (forall html,
     makeHtml conv (field props (lit "body")) = Ok (VStr html) ->
     ((exists d, outcome = Ok d) <-> acceptable)).
Proof.
  intros Hgot Hbody Hnb Hfeed Hlt outcome acceptable.
  assert (Hout : outcome =
            if newer && (acceptBeta h || negb (truthy (field props (lit "prerelease"))))
                 && negb (truthy (field props (lit "draft")))
            then
              and_then (makeHtml conv (field props (lit "body"))) (fun html =>
              and_then (string_method (lit "replace") html replace_aRE) (fun html =>
              Ok {| newVer := field props (lit "tag_name");
                    curVer := CUR_VER;
                    changelog := html;
                    releaseURL := field props (lit "html_url");
                    isBeta := field props (lit "prerelease");
                    downloadURL := [] |}))
            else Throw NoUpdate).
  { unfold outcome. rewrite (check_fulfilled h this Hgot Hbody).
    rewrite (parseResponse_parsed h {| _response := VStr body |} eq_refl Hnb Hfeed).
    cbn [fst index0]. rewrite verdict_decision. apply (decision_record _ _ Hlt). }
  assert (Hacc : acceptable <->
            newer && (acceptBeta h || negb (truthy (field props (lit "prerelease"))))
              && negb (truthy (field props (lit "draft"))) = true).
  { unfold acceptable.
    rewrite !andb_true_iff, orb_true_iff, !negb_true_iff. tauto. }
  rewrite Hout.
  destruct (newer && (acceptBeta h || negb (truthy (field props (lit "prerelease"))))
              && negb (truthy (field props (lit "draft")))) eqn:Hcond.
  - assert (Hyes : acceptable) by (apply Hacc; reflexivity).
    split; [intros _; exact Hyes|].
    split; [intros Hno; contradiction|].
    intros html Hhtml. rewrite Hhtml. cbn [and_then string_method].
    split; [intros _; exact Hyes | intros _; eexists; reflexivity].
  - assert (Hno : ~ acceptable) by (intros Hyes; apply Hacc in Hyes; discriminate).
    split; [intros [d Hd]; discriminate|].
    split; [reflexivity|].
    intros html _. split; [intros [d Hd]; discriminate | intros Hyes; contradiction].
Qed.

(** The classes of [classify] for every error the [catch] block can be
    handed, whatever fields it carries: they are disjoint and cover all
    cases.  A status of 500 or more gives the [server_error] message with
    the status; 400 to 499 the [client_error] message; 300 to 399 the
    [redirect_error] message; a status below 300 or none, with the code
    [ENOTFOUND], the [connection_error] message; a status below 300 or
    none, with any other code or none, the untranslated message with code
    and text. *)
Theorem transport_error_classes h this error :
  got h request = Rejected error ->
  let thrown := classify trans error in
  let status := statusCode error in
  let below_300 := status = None \/ exists c, status = Some c /\ (c < 300)%Z in
  check h this = (Throw thrown, this) /\
  (forall c, status = Some c -> (500 <= c)%Z ->
     thrown = Error (trans (lit "dialog.update.server_error") [VNum (number_of_Z c)])) /\
  (forall c, status = Some c -> (400 <= c < 500)%Z ->
     thrown = Error (trans (lit "dialog.update.client_error") [VNum (number_of_Z c)])) /\
  (forall c, status = Some c -> (300 <= c < 400)%Z ->
     thrown = Error (trans (lit "dialog.update.redirect_error") [VNum (number_of_Z c)])) /\
  (below_300 -> code error = Some (lit "ENOTFOUND") ->
     thrown = Error (trans (lit "dialog.update.connection_error") [])) /\
  (below_300 -> code error <> Some (lit "ENOTFOUND") ->
     thrown = Error (lit "Could not check for updates. " ++ to_string_opt (code error)
                       ++ lit ": " ++ message error)).
Proof.
  intros Hgot thrown status below_300.
  split; [exact (check_rejected h this Hgot)|].
  unfold thrown, status, below_300.
  split; [|split; [|split; [|split]]].
  - intros c Hs Hc. apply (classify_status error (proj1 (status_class_500 c) Hc) Hs).
  - intros c Hs Hc. apply (classify_status error (proj1 (status_class_400 c) Hc) Hs).
  - intros c Hs Hc. apply (classify_status error (proj1 (status_class_300 c) Hc) Hs).
  - intros Hlow Hcode. rewrite (classify_below_300 error Hlow), Hcode.
    rewrite eqb_refl. reflexivity.
  - intros Hlow Hcode. rewrite (classify_below_300 error Hlow).
    destruct (code error) as [k|]; [|reflexivity].
    destruct (JsString.eqb k (lit "ENOTFOUND")) eqn:Hk; [|reflexivity].
    apply eqb_eq in Hk. congruence.
Qed.


(** C3.  A response body that is empty or holds white space only makes
    [_parseResponse] throw the [no_data] error; [this._response] still
    holds the body, unparsed, and neither the parser nor the version
    comparison nor the converter has any say in the outcome. *)
Theorem blank_body_no_data h (this : UpdateCheck) (body : jsstring) :
  _response this = VStr body ->
  blank body ->
  parseResponse h this = (Throw NoData, this).
Proof. apply parseResponse_blank. Qed.

(** C4, as amended.  When the response body is not blank and [JSON.parse]
    throws on it, [_check] fails with that very exception: it is not caught,
    wrapped or given a kind of its own, and the body stays in
    [this._response]. *)
Theorem unparsable_body_raw_exception h this response body e :
  got h request = Fulfilled response ->
  member response (lit "body") = Ok (VStr body) ->
  ~ blank body ->
  JSON_parse body = Throw e ->
  check h this = (Throw e, {| _response := VStr body |}) /\
  escapes_raw (JSON_parse body) (fst (check h this)).
Proof.
  intros Hgot Hbody Hnb Hfeed.
  rewrite (check_fulfilled h this Hgot Hbody).
  rewrite (parseResponse_unparsable h {| _response := VStr body |} eq_refl Hnb Hfeed).
  split; [reflexivity|]. exists e. split; [exact Hfeed | reflexivity].
Qed.

(** C6.  Whenever [_parseResponse] returns an [UpdateData], the body had
    parsed to a feed with a first record, and the fields are: [newVer] the
    record's [tag_name], [curVer] the running version, [releaseURL] the
    record's [html_url], [isBeta] the record's [prerelease] (so an accepted
    prerelease gives a true [isBeta]) and [downloadURL] the empty string. *)
Theorem update_data_fields h this d :
  fst (parseResponse h this) = Ok d ->
  exists body feed r0,
    _response this = VStr body /\
    JSON_parse body = Ok feed /\
    index0 feed = Ok r0 /\
    member r0 (lit "tag_name") = Ok (newVer d) /\
    curVer d = CUR_VER /\
    member r0 (lit "html_url") = Ok (releaseURL d) /\
    member r0 (lit "prerelease") = Ok (isBeta d) /\
    (forall p, member r0 (lit "prerelease") = Ok p -> truthy p = true ->
               truthy (isBeta d) = true) /\
    downloadURL d = [].
Proof.
  intros H. apply parseResponse_ok_inv in H as (body & feed & Hthis & _ & Hfeed & H).
  apply decision_ok_inv in H
    as (r0 & b & html & H0 & Htag & _ & _ & _ & _ & _ & _ & Hcur & Hurl & Hpre & Hdl).
  exists body, feed, r0. repeat split; trivial.
  intros p Hp Ht. congruence.
Qed.

(** C7.  The outcome of [_check] depends on the feed through its first
    record only: two hosts with the same beta setting, whose feeds parse to
    lists with the same first record, get the same outcome, whatever
    records follow. *)
Theorem first_record_decides h1 h2 this1 this2 response1 response2
    body1 body2 r0 rest1 rest2 :
  got h1 request = Fulfilled response1 ->
  got h2 request = Fulfilled response2 ->
  member response1 (lit "body") = Ok (VStr body1) ->
  member response2 (lit "body") = Ok (VStr body2) ->
  ~ blank body1 ->
  ~ blank body2 ->
  JSON_parse body1 = Ok (VArr (r0 :: rest1)) ->
  JSON_parse body2 = Ok (VArr (r0 :: rest2)) ->
  acceptBeta h1 = acceptBeta h2 ->
  fst (check h1 this1) = fst (check h2 this2).
Proof.
  intros Hgot1 Hgot2 Hb1 Hb2 Hnb1 Hnb2 Hfeed1 Hfeed2 Hbeta.
  rewrite (check_fulfilled h1 this1 Hgot1 Hb1), (check_fulfilled h2 this2 Hgot2 Hb2).
  rewrite (parseResponse_parsed h1 {| _response := VStr body1 |} eq_refl Hnb1 Hfeed1).
  rewrite (parseResponse_parsed h2 {| _response := VStr body2 |} eq_refl Hnb2 Hfeed2).
  cbn [fst index0]. rewrite !verdict_decision, Hbeta. reflexivity.
Qed.

(** C8.  A second [_check] against the same host, started from the state
    the first one left, has the outcome of the first and leaves the state
    as the first left it. *)
Theorem check_twice h this :
  let first := _check trans JSON_parse semver_lt makeHtml engine_message REPO_URL CUR_VER h this in
  let second :=
    _check trans JSON_parse semver_lt makeHtml engine_message REPO_URL CUR_VER h (snd first) in
  fst second = fst first /\ snd second = snd first.
Proof.
  cbv zeta. destruct (got h request) as [response|error] eqn:Hgot.
  - rewrite (check_overwrites h (snd (check h this)) this Hgot).
    split; reflexivity.
  - rewrite (check_rejected h this Hgot). cbn [snd].
    rewrite (check_rejected h this Hgot). split; reflexivity.
Qed.

(** C9.  [run] completes with [true] and does not throw, and the promise
    chain leaves no rejection unhandled.  It logs exactly one event:
    [update-available] with the data when [_check] returns; and when
    [_check] throws, whatever it throws, a notification whose text is the
    message of what was thrown: the text an [Error] of this module was
    created with, the engine's wording of a [TypeError], the message of
    a library's exception. *)
Theorem run_reports_outcome h p :
  let checked := check h (this_ p) in
  let after :=
    run trans JSON_parse semver_lt makeHtml engine_message REPO_URL CUR_VER h p in
  fst after = Ok true /\
  unhandled (snd after) = unhandled p /\
  this_ (snd after) = snd checked /\
  exists ev,
    events (snd after) = events p ++ [ev] /\
    (forall res, fst checked = Ok res -> ev = IpcSend (lit "update-available") res) /\
    (forall text, fst checked = Throw (Error text) -> ev = Notify text) /\
    (forall f, fst checked = Throw (TypeError f) -> ev = Notify (engine_message f)) /\
    (forall name text, fst checked = Throw (Foreign name text) -> ev = Notify text).
Proof.
  cbv zeta. unfold run, async, settle, catch_, then_, on_this, emit.
  destruct (check h (this_ p)) as [[res|e] this']; cbn [fst snd this_ events unhandled].
  - repeat split. eexists. split; [reflexivity|].
    repeat split; intros; try discriminate. congruence.
  - repeat split. eexists. split; [reflexivity|].
    destruct e; cbn [exn_message]; repeat split; intros; try discriminate; congruence.
Qed.

(** C10.  A non-blank body that parses to the empty list makes
    [_parseResponse] fail with the engine's [TypeError] for reading a
    property of [undefined]: [tag_name] when betas are accepted,
    [prerelease] otherwise.  That is neither the [no_data] nor the
    [no_update] error. *)
Theorem empty_feed_type_error h this body :
  _response this = VStr body ->
  ~ blank body ->
  JSON_parse body = Ok (VArr []) ->
  let outcome := fst (parseResponse h this) in
  outcome = Throw (TypeError (CannotRead
                     (if acceptBeta h then lit "tag_name" else lit "prerelease")
                     VUndefined)) /\
  outcome <> Throw NoData /\
  outcome <> Throw NoUpdate.
Proof.
  intros Hthis Hnb Hfeed outcome.
  assert (Hout : outcome =
            Throw (TypeError (CannotRead
                     (if acceptBeta h then lit "tag_name" else lit "prerelease")
                     VUndefined))).
  { unfold outcome. rewrite (parseResponse_parsed h _ Hthis Hnb Hfeed).
    cbn [fst index0]. rewrite verdict_decision.
    destruct (acceptBeta h); reflexivity. }
  rewrite Hout. repeat split; discriminate.
Qed.

(** X1.  The invariant of the data model: an [UpdateData] is produced only
    when the body parsed to a feed whose first element has a tag newer than
    the running version, is no draft, and is no prerelease unless betas are
    accepted. *)
Lemma update_only_when_acceptable h this d :
  fst (parseResponse h this) = Ok d ->
  exists body feed r0 tag draft prerelease,
    _response this = VStr body /\
    JSON_parse body = Ok feed /\
    index0 feed = Ok r0 /\
    member r0 (lit "tag_name") = Ok tag /\
    semver_lt CUR_VER tag = Ok true /\
    member r0 (lit "draft") = Ok draft /\
    truthy draft = false /\
    member r0 (lit "prerelease") = Ok prerelease /\
    (acceptBeta h = true \/ truthy prerelease = false).
Proof.
  intros H. apply parseResponse_ok_inv in H as (body & feed & Hthis & _ & Hfeed & H).
  apply decision_ok_inv in H
    as (r0 & b & html & H0 & Htag & Hlt & Hacc & (draft & Hdr & Hfalse)
        & _ & _ & _ & _ & _ & Hpre & _).
  exists body, feed, r0, (newVer d), draft, (isBeta d). repeat split; trivial.
Qed.

(** X2.  The changelog of a produced [UpdateData] is [replace_aRE] of what the
    converter, built with [headerLevelStart: 2], makes of the first
    record's body. *)
Lemma changelog_is_rewritten_rendering h this d :
  fst (parseResponse h this) = Ok d ->
  exists body feed r0 notes html,
    _response this = VStr body /\
    JSON_parse body = Ok feed /\
    index0 feed = Ok r0 /\
    member r0 (lit "body") = Ok notes /\
    headerLevelStart conv = 2 /\
    makeHtml conv notes = Ok (VStr html) /\
    changelog d = replace_aRE html.
Proof.
  intros H. apply parseResponse_ok_inv in H as (body & feed & Hthis & _ & Hfeed & H).
  apply decision_ok_inv in H
    as (r0 & notes & html & H0 & _ & _ & _ & _ & Hnotes & Hhtml & Hlog & _).
  exists body, feed, r0, notes, html. repeat split; trivial.
Qed.

(** *** Further properties of [_check], [_parseResponse] and [run] *)

(** [_check] returns only after [got] has fulfilled and [_parseResponse]
    has returned on the response's body. *)
Lemma check_ok_inv h this d :
  fst (check h this) = Ok d ->
  exists response b,
    got h request = Fulfilled response /\
    member response (lit "body") = Ok b /\
    fst (parseResponse h {| _response := b |}) = Ok d.
Proof.
  intros H. destruct (got h request) as [response|error] eqn:Hgot.
  - exists response.
    destruct (member response (lit "body")) as [b|e] eqn:Hb.
    + exists b. rewrite (check_fulfilled h this Hgot Hb) in H. auto.
    + rewrite (check_unreadable h this Hgot Hb) in H. discriminate.
  - rewrite (check_rejected h this Hgot) in H. discriminate.
Qed.

Lemma decision_beta_mono first d :
  decision_ false first = Ok d -> decision_ true first = Ok d.
Proof.
  intros H. apply decision_ok_inv in H
    as (r0 & body & html & -> & Htag & Hlt & _ & (draft & Hdr & Hfalse)
        & Hbody & Hhtml & Hlog & Hcur & Hurl & Hpre & Hdl).
  unfold decision, read. cbn [and_then].
  rewrite Htag. cbn [and_then]. rewrite Hlt. cbn [and_then andb].
  rewrite Hdr. cbn [and_then]. rewrite Hfalse. cbn [negb].
  rewrite Hbody. cbn [and_then]. rewrite Hhtml. cbn [and_then string_method].
  rewrite Hurl, Hpre. cbn [and_then].
  destruct d. cbn in *. subst. reflexivity.
Qed.

(** The process after [run], by the outcome of [_check]. *)
Lemma run_logs h p :
  snd (run trans JSON_parse semver_lt makeHtml engine_message REPO_URL CUR_VER h p) =
  {| this_ := snd (check h (this_ p));
     events := events p ++
       [match fst (check h (this_ p)) with
        | Ok res => IpcSend (lit "update-available") res
        | Throw e => Notify (exn_message engine_message e)
        end];
     unhandled := unhandled p |}.
Proof.
  unfold run, async, settle, catch_, then_, on_this, emit.
  destruct (check h (this_ p)) as [[res|e] this']; reflexivity.
Qed.

Lemma check_again h this : check h (snd (check h this)) = check h this.
Proof.
  destruct (got h request) as [response|error] eqn:Hgot.
  - apply (check_overwrites h _ _ Hgot).
  - rewrite (check_rejected h this Hgot). cbn [snd].
    apply (check_rejected h this Hgot).
Qed.

(** X7.  What [_check] leaves in [this._response] once [got] has fulfilled
    with a string body: the body itself when it is blank or no JSON, the
    parsed feed otherwise, whether the check then returns or throws.  The
    response object does not stay in the field. *)
Theorem response_field_after_check h this response body :
  got h request = Fulfilled response ->
  member response (lit "body") = Ok (VStr body) ->
  _response (snd (check h this)) =
  if blankb body then VStr body
  else match JSON_parse body with
       | Ok feed => feed
       | Throw _ => VStr body
       end.
Proof.
  intros Hgot Hbody. rewrite (check_fulfilled h this Hgot Hbody).
  destruct (blankb body) eqn:Hb.
  - apply blankb_spec in Hb.
    rewrite (parseResponse_blank h {| _response := VStr body |} eq_refl Hb).
    reflexivity.
  - assert (Hnb : ~ blank body).
    { intros Hbl. apply blankb_spec in Hbl. congruence. }
    destruct (JSON_parse body) as [feed|e] eqn:Hfeed.
    + rewrite (parseResponse_parsed h {| _response := VStr body |} eq_refl Hnb Hfeed).
      reflexivity.
    + rewrite (parseResponse_unparsable h {| _response := VStr body |} eq_refl Hnb Hfeed).
      reflexivity.
Qed.

(** X8.  [_check] uses the host for nothing but the answer to the releases
    request and the setting [checkForBeta]: two hosts that
    agree on these two give the same outcome and leave the same state. *)
Theorem check_reads_request_and_setting h1 h2 this :
  got h1 (releases_request REPO_URL) = got h2 (releases_request REPO_URL) ->
  config_get h1 (lit "checkForBeta") = config_get h2 (lit "checkForBeta") ->
  check h1 this = check h2 this.
Proof.
  intros Hgot Hcfg. unfold _check, _parseResponse.
  rewrite Hgot, Hcfg. reflexivity.
Qed.

(** X9.  Accepting betas never hides an update: when [_check] returns an
    [UpdateData] with betas declined, it returns the same [UpdateData]
    against the same response with betas accepted. *)
Theorem accepting_betas_keeps_update h1 h2 this1 this2 d :
  got h1 request = got h2 request ->
  acceptBeta h1 = false ->
  acceptBeta h2 = true ->
  fst (check h1 this1) = Ok d ->
  fst (check h2 this2) = Ok d.
Proof.
  intros Hgot Hb1 Hb2 H.
  apply check_ok_inv in H as (response & b & Hgot1 & Hbody & H).
  apply parseResponse_ok_inv in H as (body & feed & Hthis & Hnb & Hfeed & H).
  cbn [_response] in Hthis. subst b.
  rewrite Hgot in Hgot1.
  rewrite (check_fulfilled h2 this2 Hgot1 Hbody).
  rewrite (parseResponse_parsed h2 {| _response := VStr body |} eq_refl Hnb Hfeed).
  cbn [fst]. rewrite verdict_decision, Hb2.
  rewrite Hb1 in H. apply decision_beta_mono. exact H.
Qed.

(** X10.  A non-blank body that parses to a feed with nothing usable at
    index 0 makes [_parseResponse] fail with the engine's [TypeError]:
    reading [0] of [null] when the feed is [null]; reading [tag_name]
    (betas accepted) or [prerelease] (betas declined) of the element when
    that is [undefined] or [null], as for a feed that is an empty list, an
    object without a key [0], a number or a boolean. *)
Theorem no_first_record_type_error h this body feed :
  _response this = VStr body ->
  ~ blank body ->
  JSON_parse body = Ok feed ->
  let outcome := fst (parseResponse h this) in
  let prop := if acceptBeta h then lit "tag_name" else lit "prerelease" in
  (feed = VNull -> outcome = Throw (TypeError (CannotRead (lit "0") VNull))) /\
  (forall r0, index0 feed = Ok r0 -> r0 = VUndefined \/ r0 = VNull ->
     outcome = Throw (TypeError (CannotRead prop r0))).
Proof.
  intros Hthis Hnb Hfeed outcome prop. unfold outcome, prop.
  rewrite (parseResponse_parsed h this Hthis Hnb Hfeed). cbn [fst].
  rewrite verdict_decision. split.
  - intros ->. destruct (acceptBeta h); reflexivity.
  - intros r0 -> [-> | ->]; destruct (acceptBeta h); reflexivity.
Qed.

(** X11.  When the response's [body] is not a string, [_check] stores it in
    [this._response] and fails at [trim] with the engine's [TypeError],
    before anything is parsed: the property cannot be read of [undefined]
    or [null], and is no function of any other value. *)
Theorem body_not_a_string h this response b :
  got h request = Fulfilled response ->
  member response (lit "body") = Ok b ->
  (forall s, b <> VStr s) ->
  check h this =
  (Throw (TypeError match b with
                    | VUndefined | VNull => CannotRead (lit "trim") b
                    | _ => NotCallable (lit "trim") b
                    end),
   {| _response := b |}).
Proof.
  intros Hgot Hb Hns. rewrite (check_fulfilled h this Hgot Hb).
  unfold _parseResponse. cbn [bind get_response _response].
  destruct b; try reflexivity. exfalso. exact (Hns s eq_refl).
Qed.

(** X12.  Two runs in a row against the same host log the same event
    twice, after whatever was logged before, and the second run leaves
    the command as the first left it. *)
Theorem run_twice h p :
  let run_ := run trans JSON_parse semver_lt makeHtml engine_message REPO_URL CUR_VER h in
  let p1 := snd (run_ p) in
  let p2 := snd (run_ p1) in
  exists ev,
    events p1 = events p ++ [ev] /\
    events p2 = events p ++ [ev; ev] /\
    this_ p2 = this_ p1.
Proof.
  cbv zeta. rewrite !run_logs. cbn [this_ events].
  rewrite check_again. eexists. split; [reflexivity|].
  split; [|reflexivity]. rewrite <- app_assoc. reflexivity.
Qed.

(** X13.  A rejection without status (or with one below 300) and without
    code is notified to the user with the word [undefined] where the code
    would stand: "Could not check for updates. undefined: " and the
    error's text. *)
Theorem missing_code_notified_as_undefined h p error :
  got h request = Rejected error ->
  statusCode error = None \/ (exists c, statusCode error = Some c /\ (c < 300)%Z) ->
  code error = None ->
  events (snd (run trans JSON_parse semver_lt makeHtml engine_message
                 REPO_URL CUR_VER h p)) =
  events p ++ [Notify (lit "Could not check for updates. undefined: " ++ message error)].
Proof.
  intros Hgot Hlow Hcode. rewrite run_logs. cbn [events].
  rewrite (check_rejected h (this_ p) Hgot). cbn [fst exn_message].
  rewrite (classify_below_300 error Hlow), Hcode. reflexivity.
Qed.

(** X14.  From status 300 on the status alone decides the error: two
    rejections with the same status of 300 or more get the same message,
    one of the three translated ones applied to the status, whatever
    their codes and texts; [ENOTFOUND] beside such a status is not
    reported as a connection error. *)
Theorem status_decides_from_300 error1 error2 c :
  statusCode error1 = Some c ->
  statusCode error2 = Some c ->
  (300 <= c)%Z ->
  exists key,
    status_class c = Some key /\
    classify trans error1 = Error (trans key [VNum (number_of_Z c)]) /\
    classify trans error2 = Error (trans key [VNum (number_of_Z c)]).
Proof.
  intros H1 H2 Hc.
  destruct (status_class c) as [key|] eqn:Hk.
  - exists key. split; [reflexivity|].
    split; [exact (classify_status error1 Hk H1) | exact (classify_status error2 Hk H2)].
  - apply status_class_none in Hk. lia.
Qed.

(** X15.  Missing flags count as false: a first record that has neither a
    [prerelease] nor a [draft] key, with a newer tag and notes that render
    to a string, is offered as an update whatever the beta setting, with
    [isBeta] left [undefined]. *)
Theorem record_without_flags_is_offered h this response body props rest html :
  got h request = Fulfilled response ->
  member response (lit "body") = Ok (VStr body) ->
  ~ blank body ->
  JSON_parse body = Ok (VArr (VObj props :: rest)) ->
  lookup (lit "prerelease") props = None ->
  lookup (lit "draft") props = None ->
  semver_lt CUR_VER (field props (lit "tag_name")) = Ok true ->
  makeHtml conv (field props (lit "body")) = Ok (VStr html) ->
  fst (check h this) =
  Ok {| newVer := field props (lit "tag_name");
        curVer := CUR_VER;
        changelog := replace_aRE html;
        releaseURL := field props (lit "html_url");
        isBeta := VUndefined;
        downloadURL := [] |}.
Proof.
  intros Hgot Hbody Hnb Hfeed Hpre Hdraft Hlt Hhtml.
  rewrite (check_fulfilled h this Hgot Hbody).
  rewrite (parseResponse_parsed h {| _response := VStr body |} eq_refl Hnb Hfeed).
  cbn [fst index0]. rewrite verdict_decision, (decision_record _ _ Hlt), Hhtml.
  assert (Hp : field props (lit "prerelease") = VUndefined)
    by (unfold field; rewrite Hpre; reflexivity).
  assert (Hd : field props (lit "draft") = VUndefined)
    by (unfold field; rewrite Hdraft; reflexivity).
  rewrite Hp, Hd. cbn [truthy negb andb]. rewrite orb_true_r. reflexivity.
Qed.

(** X19.  Reading [body] of the response happens inside the [try] block:
    when [got] fulfils with [undefined] or [null], the engine's
    [TypeError] is caught and [_check] throws the untranslated error in
    its place, with [undefined] for the code and the engine's wording for
    the text; the response stays in [this._response] and nothing is
    parsed. *)
Theorem unreadable_response_reported h this response :
  got h request = Fulfilled response ->
  response = VUndefined \/ response = VNull ->
  check h this =
  (Throw (Error (lit "Could not check for updates. undefined: "
                   ++ engine_message (CannotRead (lit "body") response))),
   {| _response := response |}).
Proof.
  intros Hgot Hshape.
  assert (Hb : member response (lit "body")
               = Throw (TypeError (CannotRead (lit "body") response)))
    by (destruct Hshape as [-> | ->]; reflexivity).
  rewrite (check_unreadable h this Hgot Hb).
  rewrite (classify_below_300 (caught engine_message _) (or_introl eq_refl)).
  reflexivity.
Qed.

(** X17.  Of a first record only [prerelease], [tag_name], [draft], [body]
    and [html_url] count: two feeds whose first records agree on these
    five properties get the same outcome, whatever else the records
    hold. *)
Theorem five_fields_decide h this1 this2 body1 body2 props1 props2 rest1 rest2 :
  _response this1 = VStr body1 ->
  _response this2 = VStr body2 ->
  ~ blank body1 ->
  ~ blank body2 ->
  JSON_parse body1 = Ok (VArr (VObj props1 :: rest1)) ->
  JSON_parse body2 = Ok (VArr (VObj props2 :: rest2)) ->
  (forall key, In key [lit "prerelease"; lit "tag_name"; lit "draft";
                       lit "body"; lit "html_url"] ->
               field props1 key = field props2 key) ->
  fst (parseResponse h this1) = fst (parseResponse h this2).
Proof.
  intros Ht1 Ht2 Hnb1 Hnb2 Hf1 Hf2 Hsame.
  rewrite (parseResponse_parsed h this1 Ht1 Hnb1 Hf1).
  rewrite (parseResponse_parsed h this2 Ht2 Hnb2 Hf2).
  cbn [fst index0]. rewrite !verdict_decision.
  unfold decision, read. cbn [and_then]. rewrite !member_record.
  rewrite (Hsame (lit "prerelease")), (Hsame (lit "tag_name")),
    (Hsame (lit "draft")), (Hsame (lit "body")), (Hsame (lit "html_url"));
    cbn [In]; auto 6.
Qed.

(** X18.  [_parseResponse] uses up the response: once it has parsed the
    body to a list or an object, [this._response] holds that value, and a
    second call without a new response fails at [trim] with the engine's
    [TypeError], whatever the first call's outcome was. *)
Theorem parseResponse_twice h this body feed :
  _response this = VStr body ->
  ~ blank body ->
  JSON_parse body = Ok feed ->
  (exists items, feed = VArr items) \/ (exists props, feed = VObj props) ->
  parseResponse h (snd (parseResponse h this)) =
  (Throw (TypeError (NotCallable (lit "trim") feed)), {| _response := feed |}).
Proof.
  intros Hthis Hnb Hfeed Hshape.
  rewrite (parseResponse_parsed h this Hthis Hnb Hfeed). cbn [snd].
  unfold _parseResponse. cbn [bind get_response _response].
  destruct Hshape as [(items & ->)|(props & ->)]; reflexivity.
Qed.

End Properties.

(** *** What [replace_aRE] rewrites *)

Lemma replace_aRE_cons c s :
  replace_aRE (c :: s) =
  match aRE_exec (c :: s) with
  | Some (p1, p2, rest) => replacement p1 p2 ++ replace_aRE rest
  | None => c :: replace_aRE s
  end.
Proof.
  simp replace_aRE.
  destruct (inspect (aRE_exec (c :: s))) as [[[[p1 p2] rest]|] Ho];
    simp replace_aRE; rewrite Ho; reflexivity.
Qed.

Lemma lazy_text_unfold s :
  lazy_text s =
  match starts_with (lit "</a>") s with
  | Some rest => Some ([], rest)
  | None =>
      match s with
      | [] => None
      | c :: s' =>
          if is_line_terminator c then None
          else match lazy_text s' with
               | Some (p2, rest) => Some (c :: p2, rest)
               | None => None
               end
      end
  end.
Proof. destruct s; reflexivity. Qed.

Lemma starts_with_other p c s a :
  a <> c -> starts_with (a :: p) (c :: s) = None.
Proof.
  intros H. cbn. destruct (N.eqb_spec a c); [contradiction|reflexivity].
Qed.

(** Text free of [<] and of line breaks is taken whole by [(.*?)]. *)
Lemma lazy_text_plain p2 rest :
  Forall (plain 60%N) p2 ->
  lazy_text (p2 ++ lit "</a>" ++ rest) = Some (p2, rest).
Proof.
  induction 1 as [|c p2 [Hlt Hc] _ IH]; rewrite lazy_text_unfold.
  - cbn [app]. rewrite starts_with_app. reflexivity.
  - cbn [app]. change (lit "</a>") with (60%N :: lit "/a>").
    rewrite starts_with_other by congruence.
    rewrite Hlt. change (60%N :: lit "/a>") with (lit "</a>").
    rewrite IH. reflexivity.
Qed.

(** Attributes free of [>] and of line breaks are taken whole by [(.+?)]. *)
Lemma lazy_attrs_plain p1 p2 rest :
  p1 <> [] ->
  Forall (plain 62%N) p1 ->
  Forall (plain 60%N) p2 ->
  lazy_attrs (p1 ++ lit ">" ++ p2 ++ lit "</a>" ++ rest) = Some (p1, p2, rest).
Proof.
  intros Hne H1 H2. induction H1 as [|c p1 [Hlt Hc] H1 IH]; [contradiction|].
  cbn [app lazy_attrs]. rewrite Hlt.
  destruct p1 as [|c' p1].
  - cbn [app]. rewrite starts_with_app, (lazy_text_plain rest H2). reflexivity.
  - cbn [app]. change (lit ">") with [62%N].
    inversion H1 as [|? ? [_ Hc'] _]; subst.
    rewrite starts_with_other by congruence.
    change [62%N] with (lit ">").
    cbn [app] in IH. rewrite IH by discriminate. reflexivity.
Qed.

(** An anchor on one line, with attributes free of [>] and a text free of
    [<], is rewritten: it gets the [onclick] handler and the [target]. *)
Lemma one_line_anchor_rewritten p1 p2 rest :
  p1 <> [] ->
  Forall (plain 62%N) p1 ->
  Forall (plain 60%N) p2 ->
  replace_aRE (lit "<a" ++ p1 ++ lit ">" ++ p2 ++ lit "</a>" ++ rest) =
  replacement p1 p2 ++ replace_aRE rest.
Proof.
  intros Hne H1 H2.
  change (lit "<a") with [60%N; 97%N]. cbn [app].
  rewrite replace_aRE_cons. unfold aRE_exec.
  change (60%N :: 97%N :: ?x) with (lit "<a" ++ x).
  rewrite starts_with_app, (lazy_attrs_plain rest Hne H1 H2). reflexivity.
Qed.

(** Text without [<] is copied. *)
Lemma text_copied pre s :
  Forall (fun c => c <> 60%N) pre ->
  replace_aRE (pre ++ s) = pre ++ replace_aRE s.
Proof.
  induction 1 as [|c pre Hc _ IH]; [reflexivity|].
  cbn [app]. rewrite replace_aRE_cons. unfold aRE_exec.
  change (lit "<a") with (60%N :: lit "a").
  rewrite starts_with_other by congruence.
  rewrite IH. reflexivity.
Qed.

(** C5.  The link rewriting leaves hyperlinks without handler and target.
    A link whose text runs over two lines is not matched by [aRE], whose
    [.] stops at a line break, so its HTML comes back unchanged; and
    where inline HTML with a tag name in [a] precedes a link on the same
    line, the match starts at that tag and runs to the link's [</a>], so
    the handler lands on the other tag and the link stays as it was. *)
Theorem link_rewriting_misses_links :
  replace_aRE wrapped_link_html = wrapped_link_html /\
  replace_aRE abbr_link_html = abbr_link_rewritten.
Proof. split; vm_compute; reflexivity. Qed.

(** *** The scenarios of the specification, run on the reference
    collaborators *)

Example scenario_update_1_3_0 :
  fst (check_ref (lit "1.2.0") (serving feed_1_3_0 false) constructor)
  = Ok update_1_3_0.
Proof. vm_compute. reflexivity. Qed.

Example scenario_older_release :
  fst (check_ref (lit "2.0.0") (serving feed_1_3_0 false) constructor)
  = Throw (NoUpdateAvailableError Reference.trans).
Proof. vm_compute. reflexivity. Qed.

Example scenario_beta_declined :
  fst (check_ref (lit "1.2.0") (serving feed_beta false) constructor)
  = Throw (NoUpdateAvailableError Reference.trans).
Proof. vm_compute. reflexivity. Qed.

Example scenario_beta_accepted :
  option_map isBeta
    match fst (check_ref (lit "1.2.0") (serving feed_beta true) constructor) with
    | Ok d => Some d
    | Throw _ => None
    end
  = Some (VBool true).
Proof. vm_compute. reflexivity. Qed.

Example scenario_empty_body :
  fst (check_ref (lit "1.2.0") (serving [] false) constructor)
  = Throw (NoDataError Reference.trans).
Proof. vm_compute. reflexivity. Qed.

Example scenario_one_line_link : replace_aRE link_html = link_rewritten.
Proof. vm_compute. reflexivity. Qed.

(** A release that is not newer, without notes: the converter is not
    called, and the check ends in the [no_update] error. *)
Example scenario_up_to_date_without_notes :
  fst (check_ref (lit "1.3.0") (serving feed_no_notes false) constructor)
  = Throw (NoUpdateAvailableError Reference.trans).
Proof. vm_compute. reflexivity. Qed.

(** A tag that is no semantic version: the check fails inside [semver]. *)
Example scenario_invalid_tag :
  fst (check_ref (lit "1.2.0") (serving feed_nightly false) constructor)
  = Throw (Foreign (lit "TypeError") (lit "Invalid Version: nightly")).
Proof. vm_compute. reflexivity. Qed.

(** Notes that are [null]: the converter hands [null] back and the call of
    [replace] fails. *)
Example scenario_no_notes :
  fst (check_ref (lit "1.2.0") (serving feed_no_notes false) constructor)
  = Throw (TypeError (CannotRead (lit "replace") VNull)).
Proof. vm_compute. reflexivity. Qed.

(** Notes with inline HTML before a link, through the whole check. *)
Example scenario_abbr_before_link :
  option_map changelog
    match fst (check_ref (lit "1.2.0") (serving feed_abbr false) constructor) with
    | Ok d => Some d
    | Throw _ => None
    end
  = Some (lit "<p><abbr title='t' onclick=" ++ dquote ++ onclick ++ dquote
            ++ lit " target=" ++ dquote ++ lit "_blank" ++ dquote
            ++ lit ">abbr</abbr> <a href='https://x'>link</a></p>").
Proof. vm_compute. reflexivity. Qed.

Example scenario_notified_of_503 :
  run_ref (lit "1.2.0") (failing service_unavailable) boot
  = (Ok true, {| this_ := constructor;
                 events := [Notify (lit "dialog.update.server_error")];
                 unhandled := [] |}).
Proof. vm_compute. reflexivity. Qed.

(** *** Inputs on which the claims, as worded, fail *)

Lemma not_blank_by_computation s : blankb s = false -> ~ blank s.
Proof. intros H Hb. apply blankb_spec in Hb. congruence. Qed.

(** C1, as worded, at three feeds that are neither blank nor unparsable:
    the empty list, a release whose tag is no semantic version, and a
    release without notes.  At each the check neither returns an
    [UpdateData] nor fails with the [no_update] error. *)
Lemma feeds_neither_update_nor_no_update :
  let outcome body := fst (check_ref (lit "1.2.0") (serving body false) constructor) in
  let parseable body := ~ blank body /\ is_ok (Reference.JSON_parse body) = true in
  let neither body :=
    ~ ((exists d, outcome body = Ok d) \/
       outcome body = Throw (NoUpdateAvailableError Reference.trans)) in
  (parseable (lit "[]") /\ neither (lit "[]")) /\
  (parseable feed_nightly /\ neither feed_nightly) /\
  (parseable feed_no_notes /\ neither feed_no_notes).
Proof.
  cbv beta zeta.
  assert (H1 : fst (check_ref (lit "1.2.0") (serving (lit "[]") false) constructor)
               = Throw (TypeError (CannotRead (lit "prerelease") VUndefined)))
    by (vm_compute; reflexivity).
  assert (H2 : fst (check_ref (lit "1.2.0") (serving feed_nightly false) constructor)
               = Throw (Foreign (lit "TypeError") (lit "Invalid Version: nightly")))
    by (vm_compute; reflexivity).
  assert (H3 : fst (check_ref (lit "1.2.0") (serving feed_no_notes false) constructor)
               = Throw (TypeError (CannotRead (lit "replace") VNull)))
    by (vm_compute; reflexivity).
  rewrite H1, H2, H3.
  repeat split;
    try (apply not_blank_by_computation; reflexivity);
    try (vm_compute; reflexivity);
    intros [[d Hd]|Hno]; discriminate.
Qed.

(** Why the description needs a rejection as [got] produces them: were an
    error to carry both a status below 300 and the code [ENOTFOUND],
    [classify] would give it the [connection_error] message, and the
    description the untranslated one. *)
Lemma status_with_enotfound_is_connection_error :
  classify Reference.trans status_and_enotfound
    = Error (lit "dialog.update.connection_error") /\
  classify_as_described Reference.trans status_and_enotfound
    = Error (lit "Could not check for updates. ENOTFOUND: getaddrinfo ENOTFOUND api.github.com") /\
  classify Reference.trans status_and_enotfound
    <> classify_as_described Reference.trans status_and_enotfound.
Proof.
  split; [vm_compute; reflexivity|]. split; [vm_compute; reflexivity|].
  vm_compute. discriminate.
Qed.

(** C4, as worded, at a body that is an HTML page: the check fails with the
    parser's own [SyntaxError]. *)
Lemma html_body_escapes_as_syntax_error :
  let body := lit "<html>" in
  let outcome := fst (check_ref (lit "1.2.0") (serving body false) constructor) in
  ~ blank body /\
  outcome = Throw (Foreign (lit "SyntaxError")
                     (lit "Unexpected token < in JSON at position 0")) /\
  escapes_raw (Reference.JSON_parse body) outcome.
Proof.
  cbv zeta. split; [apply not_blank_by_computation; reflexivity|].
  split; [vm_compute; reflexivity|].
  eexists. split; vm_compute; reflexivity.
Qed.

(** *** The theorems at concrete inputs *)

Lemma update_iff_acceptable_witness :
  exists d, fst (check_ref (lit "1.2.0") (serving feed_1_3_0 false) constructor) = Ok d.
Proof.
  refine (proj2 (proj2 (proj2
    (update_iff_acceptable Reference.trans Reference.JSON_parse
       Reference.Semver.lt Reference.Showdown.makeHtml Reference.engine_message
       repo_url (lit "1.2.0")
       (serving feed_1_3_0 false) constructor
       (response := response_with feed_1_3_0) (body := feed_1_3_0)
       (props := record_1_3_0) (rest := []) (newer := true) _ _ _ _ _))
    (quoted "<h2 id=`notes`>Notes</h2>") _) _).
  - reflexivity.
  - reflexivity.
  - apply not_blank_by_computation. reflexivity.
  - vm_compute. reflexivity.
  - vm_compute. reflexivity.
  - vm_compute. reflexivity.
  - split; [reflexivity|]. split; [reflexivity|]. right. reflexivity.
Defined.

Lemma transport_error_classes_witness :
  check_ref (lit "1.2.0") (failing service_unavailable) constructor
  = (Throw (Error (Reference.trans (lit "dialog.update.server_error")
                     [VNum (number_of_Z 503)])),
     constructor).
Proof.
  destruct (transport_error_classes Reference.trans Reference.JSON_parse
              Reference.Semver.lt Reference.Showdown.makeHtml Reference.engine_message repo_url (lit "1.2.0")
              (failing service_unavailable) constructor
              (error := service_unavailable) eq_refl)
    as (Hcheck & Hserver & _).
  unfold check_ref. rewrite Hcheck. rewrite (Hserver 503%Z eq_refl); [reflexivity|].
  lia.
Defined.


Lemma blank_body_no_data_witness :
  _parseResponse Reference.trans Reference.JSON_parse Reference.Semver.lt
    Reference.Showdown.makeHtml (lit "1.2.0") (serving white_space_only false)
    {| _response := VStr white_space_only |}
  = (Throw (NoDataError Reference.trans), {| _response := VStr white_space_only |}).
Proof.
  apply blank_body_no_data with (body := white_space_only).
  - reflexivity.
  - apply blankb_spec. reflexivity.
Defined.

Lemma unparsable_body_raw_exception_witness :
  check_ref (lit "1.2.0") (serving (lit "<html>") false) constructor
  = (Throw (Foreign (lit "SyntaxError")
              (lit "Unexpected token < in JSON at position 0")),
     {| _response := VStr (lit "<html>") |}).
Proof.
  refine (proj1
    (unparsable_body_raw_exception Reference.trans Reference.JSON_parse
       Reference.Semver.lt Reference.Showdown.makeHtml Reference.engine_message repo_url (lit "1.2.0")
       (serving (lit "<html>") false) constructor
       (response := response_with (lit "<html>")) (body := lit "<html>") _ _ _ _)).
  - reflexivity.
  - reflexivity.
  - apply not_blank_by_computation. reflexivity.
  - vm_compute. reflexivity.
Defined.

Lemma update_data_fields_witness :
  exists r0,
    index0 (VArr [VObj record_1_3_0]) = Ok r0 /\
    member r0 (lit "tag_name") = Ok (newVer update_1_3_0) /\
    member r0 (lit "html_url") = Ok (releaseURL update_1_3_0) /\
    member r0 (lit "prerelease") = Ok (isBeta update_1_3_0).
Proof.
  destruct (update_data_fields Reference.trans Reference.JSON_parse
              Reference.Semver.lt Reference.Showdown.makeHtml (lit "1.2.0")
              (serving feed_1_3_0 false) {| _response := VStr feed_1_3_0 |}
              (d := update_1_3_0))
    as (body & feed & r0 & Hthis & Hfeed & H0 & Htag & _ & Hurl & Hpre & _).
  - vm_compute. reflexivity.
  - injection Hthis as <-.
    assert (Hparsed : Reference.JSON_parse feed_1_3_0 = Ok (VArr [VObj record_1_3_0]))
      by (vm_compute; reflexivity).
    rewrite Hparsed in Hfeed. injection Hfeed as <-.
    exists r0. repeat split; assumption.
Defined.

Lemma first_record_decides_witness :
  fst (check_ref (lit "1.2.0") (serving feed_1_3_0 false) constructor)
  = fst (check_ref (lit "1.2.0") (serving feed_1_3_0_and_older false) constructor).
Proof.
  refine (first_record_decides Reference.trans Reference.JSON_parse
            Reference.Semver.lt Reference.Showdown.makeHtml Reference.engine_message repo_url (lit "1.2.0")
            (serving feed_1_3_0 false) (serving feed_1_3_0_and_older false)
            constructor constructor
            (response1 := response_with feed_1_3_0)
            (response2 := response_with feed_1_3_0_and_older)
            (body1 := feed_1_3_0) (body2 := feed_1_3_0_and_older)
            (r0 := VObj record_1_3_0) (rest1 := []) (rest2 := [VObj record_1_2_0])
            _ _ _ _ _ _ _ _ _).
  - reflexivity.
  - reflexivity.
  - reflexivity.
  - reflexivity.
  - apply not_blank_by_computation. reflexivity.
  - apply not_blank_by_computation. reflexivity.
  - vm_compute. reflexivity.
  - vm_compute. reflexivity.
  - reflexivity.
Defined.

Lemma empty_feed_type_error_witness :
  fst (_parseResponse Reference.trans Reference.JSON_parse Reference.Semver.lt
         Reference.Showdown.makeHtml (lit "1.2.0") (serving (lit "[]") false)
         {| _response := VStr (lit "[]") |})
  = Throw (TypeError (CannotRead (lit "prerelease") VUndefined)).
Proof.
  refine (proj1
    (empty_feed_type_error Reference.trans Reference.JSON_parse
       Reference.Semver.lt Reference.Showdown.makeHtml (lit "1.2.0")
       (serving (lit "[]") false) {| _response := VStr (lit "[]") |}
       (body := lit "[]") _ _ _)).
  - reflexivity.
  - apply not_blank_by_computation. reflexivity.
  - reflexivity.
Defined.

(* ===================================================================== *)
(** ** Further properties of the link rewriting *)
(* ===================================================================== *)

Lemma subseq_refl s : subseq s s.
Proof. induction s; constructor; assumption. Qed.

Lemma subseq_app a a' b b' : subseq a a' -> subseq b b' -> subseq (a ++ b) (a' ++ b').
Proof.
  intros Ha Hb. induction Ha; cbn [app]; try constructor; assumption.
Qed.

Lemma subseq_insert ins s t : subseq s t -> subseq s (ins ++ t).
Proof.
  intros H. induction ins; cbn [app]; [assumption | constructor; assumption].
Qed.

Lemma subseq_length s t : subseq s t -> List.length s <= List.length t.
Proof. induction 1; cbn [List.length]; lia. Qed.

(** The replacement is the matched anchor with text put in before its [>]. *)
Lemma replacement_keeps_anchor p1 p2 :
  subseq (lit "<a" ++ p1 ++ lit ">" ++ p2 ++ lit "</a>") (replacement p1 p2).
Proof.
  unfold replacement.
  apply subseq_app; [apply subseq_refl|].
  apply subseq_app; [apply subseq_refl|].
  do 8 apply subseq_insert. apply subseq_refl.
Qed.

Lemma occurs_cons p c s : occurs p s -> occurs p (c :: s).
Proof. intros (a & b & ->). exists (c :: a), b. reflexivity. Qed.

Lemma occurs_app_r p a s : occurs p s -> occurs p (a ++ s).
Proof. intros (x & y & ->). exists (a ++ x), y. rewrite app_assoc. reflexivity. Qed.

Lemma lazy_text_one_line s p2 rest :
  lazy_text s = Some (p2, rest) -> one_line p2.
Proof.
  revert p2 rest. induction s as [|c s IH]; intros p2 rest; rewrite lazy_text_unfold.
  - destruct (starts_with (lit "</a>") []); [|discriminate].
    intros [= <- _]. constructor.
  - destruct (starts_with (lit "</a>") (c :: s)); [intros [= <- _]; constructor|].
    destruct (is_line_terminator c) eqn:Hc; [discriminate|].
    destruct (lazy_text s) as [[q r]|]; [|discriminate].
    intros [= <- _]. constructor; [exact Hc | exact (IH q r eq_refl)].
Qed.

Lemma lazy_attrs_one_line s p1 p2 rest :
  lazy_attrs s = Some (p1, p2, rest) -> one_line p1 /\ one_line p2.
Proof.
  revert p1 p2 rest. induction s as [|c s IH]; intros p1 p2 rest.
  - discriminate.
  - cbn [lazy_attrs]. destruct (is_line_terminator c) eqn:Hc; [discriminate|].
    destruct (match starts_with (lit ">") s with
              | Some r => lazy_text r
              | None => None
              end) as [[q t]|] eqn:Hhere.
    + intros [= <- <- <-]. split; [repeat constructor; exact Hc|].
      destruct (starts_with (lit ">") s); [|discriminate].
      exact (lazy_text_one_line _ Hhere).
    + destruct (lazy_attrs s) as [[[a b] t]|]; [|discriminate].
      intros [= <- <- <-]. destruct (IH a b t eq_refl) as [Ha Hb].
      split; [constructor; assumption | assumption].
Qed.

(** X3.  A hyperlink on one line, after text free of [<], with attributes
    free of [>] and a link text free of [<], is rewritten in place: the
    text before it is copied, the anchor gets the [onclick] handler and
    [target="_blank"], and the rewriting goes on after [</a>]. *)
Theorem anchor_in_text_rewritten pre p1 p2 rest :
  Forall (fun c => c <> 60%N) pre ->
  p1 <> [] ->
  Forall (plain 62%N) p1 ->
  Forall (plain 60%N) p2 ->
  replace_aRE (pre ++ lit "<a" ++ p1 ++ lit ">" ++ p2 ++ lit "</a>" ++ rest) =
  pre ++ replacement p1 p2 ++ replace_aRE rest.
Proof.
  intros Hpre Hne H1 H2.
  rewrite (text_copied _ Hpre), (one_line_anchor_rewritten rest Hne H1 H2).
  reflexivity.
Qed.

(** X4.  HTML in which [<a] does not occur, or in which [</a>] does not
    occur, comes back from the rewriting unchanged. *)
Theorem html_without_anchor_unchanged s :
  ~ occurs (lit "<a") s \/ ~ occurs (lit "</a>") s ->
  replace_aRE s = s.
Proof.
  intros H. induction s as [|c s IH]; [reflexivity|].
  rewrite replace_aRE_cons.
  destruct (aRE_exec (c :: s)) as [[[p1 p2] rest]|] eqn:Hm.
  - exfalso. apply aRE_exec_shape in Hm as [Hs _].
    destruct H as [H|H]; apply H; rewrite Hs.
    + exists [], (p1 ++ lit ">" ++ p2 ++ lit "</a>" ++ rest). reflexivity.
    + exists (lit "<a" ++ p1 ++ lit ">" ++ p2), rest.
      rewrite <- !app_assoc. reflexivity.
  - f_equal. apply IH.
    destruct H as [H|H]; [left|right]; intros Ho; apply H, occurs_cons, Ho.
Qed.

(** X5.  What [aRE] matches lies within one line: a match is the text
    [<a], a non-empty first capture, [>], the second capture and [</a>],
    and neither capture holds a line terminator. *)
Theorem match_within_one_line s p1 p2 rest :
  aRE_exec s = Some (p1, p2, rest) ->
  s = lit "<a" ++ p1 ++ lit ">" ++ p2 ++ lit "</a>" ++ rest /\
  p1 <> [] /\ one_line p1 /\ one_line p2.
Proof.
  intros H. destruct (aRE_exec_shape _ H) as [Hs Hne].
  split; [exact Hs|]. split; [exact Hne|].
  unfold aRE_exec in H. destruct (starts_with (lit "<a") s); [|discriminate].
  exact (lazy_attrs_one_line _ H).
Qed.

(** X6.  The rewriting only adds text: the HTML it is given is what it
    returns with some characters left out, so no character of the rendered
    notes is dropped or reordered, and the result is at least as long. *)
Theorem rewriting_only_adds s :
  subseq s (replace_aRE s) /\ List.length s <= List.length (replace_aRE s).
Proof.
  assert (H : subseq s (replace_aRE s)).
  { remember (List.length s) as n eqn:Hn. revert s Hn.
    induction n as [n IH] using lt_wf_ind. intros s Hn.
    destruct s as [|c s]; [simp replace_aRE; constructor|].
    rewrite replace_aRE_cons.
    destruct (aRE_exec (c :: s)) as [[[p1 p2] rest]|] eqn:Hm.
    - pose proof (aRE_exec_shorter _ Hm) as Hlen.
      apply aRE_exec_shape in Hm as [Hs _]. rewrite Hs.
      replace (lit "<a" ++ p1 ++ lit ">" ++ p2 ++ lit "</a>" ++ rest)
        with ((lit "<a" ++ p1 ++ lit ">" ++ p2 ++ lit "</a>") ++ rest)
        by (rewrite <- !app_assoc; reflexivity).
      apply subseq_app; [apply replacement_keeps_anchor|].
      apply (IH (List.length rest)); [lia | reflexivity].
    - constructor. apply (IH (List.length s)); [cbn in Hn; lia | reflexivity]. }
  split; [exact H | exact (subseq_length H)].
Qed.

(** X16.  The test of line 87, [this._response.trim() === ''], holds
    exactly for the bodies made of white space and line terminators
    only, the empty body among them. *)
Theorem no_data_guard s : JsString.eqb (trim s) [] = true <-> blank s.
Proof.
  rewrite eqb_eq. symmetry. apply blank_iff_trim.
Qed.

(** *** The further properties at concrete inputs *)

Lemma occurs_occursb p s : occurs p s -> occursb p s = true.
Proof.
  intros (a & b & ->). induction a as [|c a IH].
  - cbn [app]. destruct (p ++ b) eqn:E; cbn [occursb]; rewrite <- E;
      rewrite starts_with_app; reflexivity.
  - cbn [app occursb]. destruct (starts_with p (c :: a ++ p ++ b)); [reflexivity|].
    exact IH.
Qed.

Lemma update_only_when_acceptable_witness :
  exists body feed r0 tag draft prerelease,
    VStr feed_1_3_0 = VStr body /\
    Reference.JSON_parse body = Ok feed /\
    index0 feed = Ok r0 /\
    member r0 (lit "tag_name") = Ok tag /\
    Reference.Semver.lt (lit "1.2.0") tag = Ok true /\
    member r0 (lit "draft") = Ok draft /\
    truthy draft = false /\
    member r0 (lit "prerelease") = Ok prerelease /\
    (acceptBeta (serving feed_1_3_0 false) = true \/ truthy prerelease = false).
Proof.
  apply (update_only_when_acceptable Reference.trans Reference.JSON_parse
           Reference.Semver.lt Reference.Showdown.makeHtml (lit "1.2.0")
           (serving feed_1_3_0 false) {| _response := VStr feed_1_3_0 |}
           (d := update_1_3_0)).
  vm_compute. reflexivity.
Defined.

Lemma changelog_is_rewritten_rendering_witness :
  exists body feed r0 notes html,
    VStr feed_1_3_0 = VStr body /\
    Reference.JSON_parse body = Ok feed /\
    index0 feed = Ok r0 /\
    member r0 (lit "body") = Ok notes /\
    headerLevelStart conv = 2 /\
    Reference.Showdown.makeHtml conv notes = Ok (VStr html) /\
    changelog update_1_3_0 = replace_aRE html.
Proof.
  apply (changelog_is_rewritten_rendering Reference.trans Reference.JSON_parse
           Reference.Semver.lt Reference.Showdown.makeHtml (lit "1.2.0")
           (serving feed_1_3_0 false) {| _response := VStr feed_1_3_0 |}
           (d := update_1_3_0)).
  vm_compute. reflexivity.
Defined.

Lemma anchor_in_text_rewritten_witness :
  replace_aRE (lit "See " ++ lit "<a" ++ lit " href='u'" ++ lit ">" ++ lit "the docs"
                 ++ lit "</a>" ++ lit ".") =
  lit "See " ++ replacement (lit " href='u'") (lit "the docs") ++ replace_aRE (lit ".").
Proof.
  apply anchor_in_text_rewritten.
  - repeat constructor; discriminate.
  - discriminate.
  - repeat constructor; discriminate.
  - repeat constructor; discriminate.
Defined.

Lemma html_without_anchor_unchanged_witness :
  replace_aRE (lit "<p>No <b>links</b> here, but </a> stays.</p>")
  = lit "<p>No <b>links</b> here, but </a> stays.</p>".
Proof.
  apply html_without_anchor_unchanged. left.
  intros H. apply occurs_occursb in H. vm_compute in H. discriminate.
Defined.

Lemma match_within_one_line_witness :
  lit "<a href='u'>x</a> y" =
    lit "<a" ++ lit " href='u'" ++ lit ">" ++ lit "x" ++ lit "</a>" ++ lit " y" /\
  lit " href='u'" <> [] /\ one_line (lit " href='u'") /\ one_line (lit "x").
Proof.
  apply match_within_one_line. vm_compute. reflexivity.
Defined.

Lemma response_field_after_check_witness :
  _response (snd (check_ref (lit "1.2.0") (serving feed_1_3_0 false) constructor))
  = VArr [VObj record_1_3_0].
Proof.
  unfold check_ref.
  rewrite (response_field_after_check Reference.trans Reference.JSON_parse
             Reference.Semver.lt Reference.Showdown.makeHtml Reference.engine_message repo_url (lit "1.2.0")
             (serving feed_1_3_0 false) constructor
             (response := response_with feed_1_3_0) (body := feed_1_3_0)
             eq_refl eq_refl).
  vm_compute. reflexivity.
Defined.

Lemma check_reads_request_and_setting_witness :
  check_ref (lit "1.2.0") (serving feed_beta false) constructor
  = check_ref (lit "1.2.0") (serving_with_settings feed_beta) constructor.
Proof.
  apply (check_reads_request_and_setting Reference.trans Reference.JSON_parse
           Reference.Semver.lt Reference.Showdown.makeHtml Reference.engine_message repo_url (lit "1.2.0")
           (serving feed_beta false) (serving_with_settings feed_beta) constructor).
  - reflexivity.
  - reflexivity.
Defined.

Lemma accepting_betas_keeps_update_witness :
  fst (check_ref (lit "1.2.0") (serving feed_1_3_0 true) constructor) = Ok update_1_3_0.
Proof.
  apply (accepting_betas_keeps_update Reference.trans Reference.JSON_parse
           Reference.Semver.lt Reference.Showdown.makeHtml Reference.engine_message repo_url (lit "1.2.0")
           (serving feed_1_3_0 false) (serving feed_1_3_0 true)
           constructor constructor (d := update_1_3_0)).
  - reflexivity.
  - reflexivity.
  - reflexivity.
  - vm_compute. reflexivity.
Defined.

Lemma no_first_record_type_error_witness :
  fst (_parseResponse Reference.trans Reference.JSON_parse Reference.Semver.lt
         Reference.Showdown.makeHtml (lit "1.2.0") (serving feed_message true)
         {| _response := VStr feed_message |})
  = Throw (TypeError (CannotRead (lit "tag_name") VUndefined)).
Proof.
  refine (proj2
    (no_first_record_type_error Reference.trans Reference.JSON_parse
       Reference.Semver.lt Reference.Showdown.makeHtml (lit "1.2.0")
       (serving feed_message true) {| _response := VStr feed_message |}
       (body := feed_message)
       (feed := VObj [(lit "message", VStr (lit "Not Found"))]) _ _ _)
    VUndefined _ _).
  - reflexivity.
  - apply not_blank_by_computation. reflexivity.
  - vm_compute. reflexivity.
  - reflexivity.
  - left. reflexivity.
Defined.

Lemma body_not_a_string_witness :
  check_ref (lit "1.2.0") bodiless constructor
  = (Throw (TypeError (CannotRead (lit "trim") VUndefined)),
     {| _response := VUndefined |}).
Proof.
  apply (body_not_a_string Reference.trans Reference.JSON_parse
           Reference.Semver.lt Reference.Showdown.makeHtml Reference.engine_message repo_url (lit "1.2.0")
           bodiless constructor
           (response := VObj [(lit "statusCode", VNum (number_of_Z 200))])
           (b := VUndefined)).
  - reflexivity.
  - reflexivity.
  - intros s. discriminate.
Defined.

Lemma missing_code_notified_as_undefined_witness :
  events (snd (run_ref (lit "1.2.0") (failing hung_up) boot))
  = [Notify (lit "Could not check for updates. undefined: socket hang up")].
Proof.
  apply (missing_code_notified_as_undefined Reference.trans Reference.JSON_parse
           Reference.Semver.lt Reference.Showdown.makeHtml Reference.engine_message
           repo_url (lit "1.2.0") (failing hung_up) boot (error := hung_up)).
  - reflexivity.
  - left. reflexivity.
  - reflexivity.
Defined.

Lemma status_decides_from_300_witness :
  exists key,
    status_class 503 = Some key /\
    classify Reference.trans service_unavailable
      = Error (Reference.trans key [VNum (number_of_Z 503)]) /\
    classify Reference.trans unavailable_and_enotfound
      = Error (Reference.trans key [VNum (number_of_Z 503)]).
Proof.
  apply (status_decides_from_300 Reference.trans service_unavailable
           unavailable_and_enotfound (c := 503%Z)).
  - reflexivity.
  - reflexivity.
  - lia.
Defined.

Lemma record_without_flags_is_offered_witness :
  fst (check_ref (lit "1.2.0") (serving feed_bare false) constructor)
  = Ok {| newVer := VStr (lit "1.3.0");
          curVer := lit "1.2.0";
          changelog := replace_aRE (quoted "<h2 id=`notes`>Notes</h2>");
          releaseURL := VStr (lit "https://x/1.3.0");
          isBeta := VUndefined;
          downloadURL := [] |}.
Proof.
  apply (record_without_flags_is_offered Reference.trans Reference.JSON_parse
           Reference.Semver.lt Reference.Showdown.makeHtml Reference.engine_message repo_url (lit "1.2.0")
           (serving feed_bare false) constructor
           (response := response_with feed_bare) (body := feed_bare)
           (props := record_bare) (rest := [])
           (html := quoted "<h2 id=`notes`>Notes</h2>")).
  - reflexivity.
  - reflexivity.
  - apply not_blank_by_computation. reflexivity.
  - vm_compute. reflexivity.
  - reflexivity.
  - reflexivity.
  - vm_compute. reflexivity.
  - vm_compute. reflexivity.
Defined.

Lemma five_fields_decide_witness :
  fst (_parseResponse Reference.trans Reference.JSON_parse Reference.Semver.lt
         Reference.Showdown.makeHtml (lit "1.2.0") (serving feed_1_3_0 false)
         {| _response := VStr feed_1_3_0 |})
  = fst (_parseResponse Reference.trans Reference.JSON_parse Reference.Semver.lt
           Reference.Showdown.makeHtml (lit "1.2.0") (serving feed_1_3_0 false)
           {| _response := VStr feed_1_3_0_named |}).
Proof.
  apply (five_fields_decide Reference.trans Reference.JSON_parse
           Reference.Semver.lt Reference.Showdown.makeHtml (lit "1.2.0")
           (serving feed_1_3_0 false)
           {| _response := VStr feed_1_3_0 |} {| _response := VStr feed_1_3_0_named |}
           (body1 := feed_1_3_0) (body2 := feed_1_3_0_named)
           (props1 := record_1_3_0)
           (props2 := (lit "name", VStr (lit "Spring")) :: record_1_3_0)
           (rest1 := []) (rest2 := [])).
  - reflexivity.
  - reflexivity.
  - apply not_blank_by_computation. reflexivity.
  - apply not_blank_by_computation. reflexivity.
  - vm_compute. reflexivity.
  - vm_compute. reflexivity.
  - intros key [<-|[<-|[<-|[<-|[<-|[]]]]]]; reflexivity.
Defined.

Lemma parseResponse_twice_witness :
  let parse :=
    _parseResponse Reference.trans Reference.JSON_parse Reference.Semver.lt
      Reference.Showdown.makeHtml (lit "1.2.0") (serving feed_1_3_0 false) in
  parse (snd (parse {| _response := VStr feed_1_3_0 |}))
  = (Throw (TypeError (NotCallable (lit "trim") (VArr [VObj record_1_3_0]))),
     {| _response := VArr [VObj record_1_3_0] |}).
Proof.
  apply (parseResponse_twice Reference.trans Reference.JSON_parse
           Reference.Semver.lt Reference.Showdown.makeHtml (lit "1.2.0")
           (serving feed_1_3_0 false) {| _response := VStr feed_1_3_0 |}
           (body := feed_1_3_0) (feed := VArr [VObj record_1_3_0])).
  - reflexivity.
  - apply not_blank_by_computation. reflexivity.
  - vm_compute. reflexivity.
  - left. eexists. reflexivity.
Defined.

Lemma unreadable_response_reported_witness :
  check_ref (lit "1.2.0") answering_null constructor
  = (Throw (Error (lit "Could not check for updates. undefined: Cannot read property 'body' of null")),
     {| _response := VNull |}).
Proof.
  apply (unreadable_response_reported Reference.trans Reference.JSON_parse
           Reference.Semver.lt Reference.Showdown.makeHtml Reference.engine_message
           repo_url (lit "1.2.0") answering_null constructor (response := VNull)).
  - reflexivity.
  - right. reflexivity.
Defined.

Lemma run_reports_outcome_witness :
  events (snd (run_ref (lit "1.2.0") (serving (lit "[]") false) boot))
  = [Notify (lit "Cannot read property 'prerelease' of undefined")].
Proof.
  destruct (run_reports_outcome Reference.trans Reference.JSON_parse
              Reference.Semver.lt Reference.Showdown.makeHtml Reference.engine_message
              repo_url (lit "1.2.0") (serving (lit "[]") false) boot)
    as (_ & _ & _ & ev & Hlog & _ & _ & Htype & _).
  unfold run_ref. rewrite Hlog.
  rewrite (Htype (CannotRead (lit "prerelease") VUndefined)); [reflexivity|].
  vm_compute. reflexivity.
Defined.
